(** * PrMers work-queue parser: io/WorktodoParser.{hpp,cpp}

    A shallow embedding of the line decoder ([WorktodoParser::parse]) and of
    the queue rewrite ([WorktodoParser::removeFirstProcessed]), together with
    the properties of the work-queue specification that concern them.

    Conventions.
    - [std::string] is [string]; [std::vector<std::string>] is [list string].
    - [uint32_t], [uint64_t] and [int32_t] values are [Z], the wrap-around of
      every conversion written out.
    - A function of the source that returns [bool] and updates the entry and
      the token vector in place becomes a function returning a [run]: the
      flag, the updated entry, the updated tokens and what was printed.
    - File contents live in a [gmap string string] from path to content. *)

From Stdlib Require Import ZArith Ascii String List Lia.
From stdpp Require Import base gmap strings list.
Import ListNotations.

Open Scope Z_scope.

(** ** Characters and strings *)

Module Chars.

Definition code (ch : ascii) : N := N_of_ascii ch.

(** [std::isspace] in the "C" locale.  Line 96 passes it a plain [char]:
    for a byte above 127, where [char] is signed, C++ leaves the call
    undefined; here such a byte is no white space. *)
Definition isspace (ch : ascii) : bool :=
  (N.eqb (code ch) 32 || (N.leb 9 (code ch) && N.leb (code ch) 13))%bool.

(** [std::isdigit]. *)
Definition isdigit (ch : ascii) : bool :=
  (N.leb 48 (code ch) && N.leb (code ch) 57)%bool.

(** [std::isxdigit] in the "C" locale: 0-9, A-F, a-f. *)
Definition isxdigit (ch : ascii) : bool :=
  (isdigit ch
   || (N.leb 65 (code ch) && N.leb (code ch) 70)
   || (N.leb 97 (code ch) && N.leb (code ch) 102))%bool.

Definition digit_val (ch : ascii) : Z := Z.of_N (code ch) - 48.

Definition eqb (x y : ascii) : bool := Ascii.eqb x y.

(** The double quote and the line feed. *)
Definition dquote : ascii := "034"%char.
Definition newline : ascii := "010"%char.

End Chars.

Module Str.

Definition empty (s : string) : bool :=
  match s with EmptyString => true | String _ _ => false end.

Definition size (s : string) : nat := String.length s.

(** [s += c]. *)
Definition push_back (s : string) (ch : ascii) : string :=
  s +:+ String ch EmptyString.

Fixpoint all (p : ascii -> bool) (s : string) : bool :=
  match s with
  | EmptyString => true
  | String ch s' => (p ch && all p s')%bool
  end.

(** [s.back()] of a non-empty string. *)
Fixpoint back (s : string) : option ascii :=
  match s with
  | EmptyString => None
  | String ch EmptyString => Some ch
  | String _ s' => back s'
  end.

Definition front (s : string) : option ascii :=
  match s with EmptyString => None | String ch _ => Some ch end.

(** [s.pop_back()]. *)
Fixpoint pop_back (s : string) : string :=
  match s with
  | EmptyString => EmptyString
  | String ch EmptyString => EmptyString
  | String ch s' => String ch (pop_back s')
  end.

(** [s.substr(1, s.size() - 2)] for [s.size() >= 2]. *)
Definition strip_ends (s : string) : string :=
  match s with
  | EmptyString => EmptyString
  | String _ s' => pop_back s'
  end.

Definition eqb (x y : string) : bool := String.eqb x y.

(** [s] between double quotes. *)
Definition quoted (s : string) : string :=
  String Chars.dquote (s +:+ String Chars.dquote EmptyString).

(** [s] followed by a line feed, as [stream << s << "\n"] writes it. *)
Definition line (s : string) : string := s +:+ String Chars.newline EmptyString.

End Str.

(** ** Numeric conversions of the C++ library

    The widths are those of an LP64 platform: [unsigned long] and
    [unsigned long long] have 64 bits, [int] has 32.  [None] stands for a
    thrown [std::invalid_argument] or [std::out_of_range]. *)

Module Conv.

Definition ULONG_MAX : Z := 2 ^ 64 - 1.
Definition INT_MAX : Z := 2 ^ 31 - 1.
Definition INT_MIN : Z := - 2 ^ 31.

Fixpoint skip_space (s : string) : string :=
  match s with
  | String ch s' => if Chars.isspace ch then skip_space s' else s
  | EmptyString => s
  end.

(** An optional sign: [(negative, rest)]. *)
Definition take_sign (s : string) : bool * string :=
  match s with
  | String "-"%char s' => (true, s')
  | String "+"%char s' => (false, s')
  | _ => (false, s)
  end.

(** The longest prefix of decimal digits, accumulated from [acc];
    [seen] tells whether a digit was read. *)
Fixpoint digits (s : string) (acc : Z) (seen : bool) : option Z :=
  match s with
  | String ch s' =>
      if Chars.isdigit ch then digits s' (acc * 10 + Chars.digit_val ch) true
      else if seen then Some acc else None
  | EmptyString => if seen then Some acc else None
  end.

(** The magnitude and sign [strtoul]/[strtol] read in base 10. *)
Definition magnitude (s : string) : option (bool * Z) :=
  let '(neg, s') := take_sign (skip_space s) in
  match digits s' 0 false with
  | Some v => Some (neg, v)
  | None => None
  end.

(** [std::stoul] and [std::stoull]: a magnitude above [ULONG_MAX] throws,
    a minus sign negates modulo 2^64. *)
Definition stoul (s : string) : option Z :=
  match magnitude s with
  | Some (neg, v) =>
      if ULONG_MAX <? v then None
      else Some (if neg then (2 ^ 64 - v) mod 2 ^ 64 else v)
  | None => None
  end.

Definition stoull : string -> option Z := stoul.

(** [std::stoi]: the signed value, thrown out of the range of [int]. *)
Definition stoi (s : string) : option Z :=
  match magnitude s with
  | Some (neg, v) =>
      let sv := if neg then - v else v in
      if (sv <? INT_MIN) || (INT_MAX <? sv) then None else Some sv
  | None => None
  end.

(** [static_cast<uint32_t>]. *)
Definition to_u32 (v : Z) : Z := v mod 2 ^ 32.

End Conv.

(** ** Data model (io/WorktodoParser.hpp) *)

Inductive TestType : Type :=
  | TESTTYPE_UNSUPPORTED
  | TESTTYPE_PRP
  | TESTTYPE_LL
  | TESTTYPE_PM1.

(** The union [options] of a [WorktodoEntry]: [FactoringOptions] or
    [PrimalityOptions].  The decoder writes one arm per kind of line and
    reads [residueType] on PRP lines only, where [B1] and [B2] are never
    written. *)
Inductive Options : Type :=
  | factoring (B1 B2 : Z)
  | primality (residueType : Z).

Record WorktodoEntry : Type := mkEntry {
  testType : TestType;
  exponent : Z;
  k : Z;
  b : Z;
  c : Z;
  aid : string;
  rawLine : string;
  knownFactors : list string;
  options : Options
}.

(** [WorktodoEntry entry;] with the member initialisers of the header;
    [residueType] starts at 1. *)
Definition defaultEntry : WorktodoEntry :=
  mkEntry TESTTYPE_UNSUPPORTED 0 0 0 0 EmptyString EmptyString [] (primality 1).

Definition set_testType (e : WorktodoEntry) (v : TestType) : WorktodoEntry :=
  mkEntry v (exponent e) (k e) (b e) (c e) (aid e) (rawLine e) (knownFactors e) (options e).
Definition set_exponent (e : WorktodoEntry) (v : Z) : WorktodoEntry :=
  mkEntry (testType e) v (k e) (b e) (c e) (aid e) (rawLine e) (knownFactors e) (options e).
Definition set_k (e : WorktodoEntry) (v : Z) : WorktodoEntry :=
  mkEntry (testType e) (exponent e) v (b e) (c e) (aid e) (rawLine e) (knownFactors e) (options e).
Definition set_b (e : WorktodoEntry) (v : Z) : WorktodoEntry :=
  mkEntry (testType e) (exponent e) (k e) v (c e) (aid e) (rawLine e) (knownFactors e) (options e).
Definition set_c (e : WorktodoEntry) (v : Z) : WorktodoEntry :=
  mkEntry (testType e) (exponent e) (k e) (b e) v (aid e) (rawLine e) (knownFactors e) (options e).
Definition set_aid (e : WorktodoEntry) (v : string) : WorktodoEntry :=
  mkEntry (testType e) (exponent e) (k e) (b e) (c e) v (rawLine e) (knownFactors e) (options e).
Definition set_rawLine (e : WorktodoEntry) (v : string) : WorktodoEntry :=
  mkEntry (testType e) (exponent e) (k e) (b e) (c e) (aid e) v (knownFactors e) (options e).
Definition set_knownFactors (e : WorktodoEntry) (v : list string) : WorktodoEntry :=
  mkEntry (testType e) (exponent e) (k e) (b e) (c e) (aid e) (rawLine e) v (options e).
Definition set_options (e : WorktodoEntry) (v : Options) : WorktodoEntry :=
  mkEntry (testType e) (exponent e) (k e) (b e) (c e) (aid e) (rawLine e) (knownFactors e) v.

(** [entry.options.primality.residueType]; on the factoring arm the member
    shares its storage with the low word of [B1]. *)
Definition residueType_of (e : WorktodoEntry) : Z :=
  match options e with
  | primality r => r
  | factoring b1 _ => Conv.to_u32 b1
  end.

Definition isMersenne (e : WorktodoEntry) : bool :=
  (k e =? 1) && (b e =? 2) && (c e =? -1).

(** The header writes [knownfactors.length() > 0 && knownfactors[0] == "3"]
    for the last two tests. *)
Definition isWagstaff (e : WorktodoEntry) : bool :=
  (k e =? 1) && (b e =? 2) && (c e =? 1) &&
  match knownFactors e with
  | f :: _ => Str.eqb f "3"
  | [] => false
  end.

(** What a line prints: a reason on [std::cerr], or the residue-type
    warning on [std::cout] with its two numbers. *)
Inductive msg : Type :=
  | cerr (text : string)
  | residue_warning (rt expected : Z).

(** ** Tokenizers *)

(** [while (std::getline(stream, token, delim)) result.push_back(token);]:
    the tokens between delimiters; what follows the last delimiter is a
    token only when it is not empty. *)
Fixpoint getline_loop (delim : ascii) (s : string)
    (result : list string) (current : string) : list string :=
  match s with
  | String ch s' =>
      if Chars.eqb ch delim then getline_loop delim s' (result ++ [current]) EmptyString
      else getline_loop delim s' result (Str.push_back current ch)
  | EmptyString => if Str.empty current then result else result ++ [current]
  end.

(** Modelled from the spec: [util::split] of util/StringUtils.hpp, which is
    not among the sources, the "generic tokenizer" [split(text, delimiter)]
    that gives the sequence of the texts between delimiters; it is taken to
    read them with [std::getline]. *)
Definition util_split (s : string) (delim : ascii) : list string :=
  getline_loop delim s [] EmptyString.

(** [splitRespectingQuotes]: a delimiter inside double quotes does not
    split, and the quotes stay in the token. *)
Fixpoint srq_loop (delim : ascii) (s : string)
    (result : list string) (current : string) (inQuotes : bool) : list string :=
  match s with
  | String ch s' =>
      if Chars.eqb ch Chars.dquote then
        srq_loop delim s' result (Str.push_back current ch) (negb inQuotes)
      else if Chars.eqb ch delim && negb inQuotes then
        srq_loop delim s' (result ++ [current]) EmptyString inQuotes
      else
        srq_loop delim s' result (Str.push_back current ch) inQuotes
  | EmptyString => if Str.empty current then result else result ++ [current]
  end.

Definition splitRespectingQuotes (s : string) (delim : ascii) : list string :=
  srq_loop delim s [] EmptyString false.

(** [while (std::getline(file, line))]: the lines of a file. *)
Definition getlines (content : string) : list string :=
  getline_loop Chars.newline content [] EmptyString.

(** ** Helpers of the decoder *)

Definition isHex (s : string) : bool :=
  if negb (Nat.eqb (Str.size s) 32) then false
  else Str.all Chars.isxdigit s.

(** The trailing-whitespace loop of [parseFactors]; [fuel] bounds the
    iterations by the size of the string. *)
Fixpoint trim_back (fuel : nat) (trimmed : string) : string :=
  match fuel with
  | O => trimmed
  | S fuel' =>
      match Str.back trimmed with
      | Some ch => if Chars.isspace ch then trim_back fuel' (Str.pop_back trimmed) else trimmed
      | None => trimmed
      end
  end.

Definition parseFactors (factorStr : string) : list string :=
  let trimmed := trim_back (Str.size factorStr) factorStr in
  match Str.front trimmed, Str.back trimmed with
  | Some f, Some l =>
      if (2 <=? Str.size trimmed)%nat && Chars.eqb f Chars.dquote && Chars.eqb l Chars.dquote
      then util_split (Str.strip_ends trimmed) ","%char
      else []
  | _, _ => []
  end.

(** The result of a helper that returns [bool] and updates its arguments. *)
Record run : Type := Run {
  ok : bool;
  ent : WorktodoEntry;
  rest : list string;
  out : list msg
}.

Definition parsePartsFactors (entry : WorktodoEntry) (parts : list string) : run :=
  match parts with
  | [] => Run false entry parts []
  | _ :: _ =>
      let kf := parseFactors (List.last parts EmptyString) in
      match kf with
      | [] => Run true entry parts []
      | _ :: _ => Run true (set_knownFactors entry kf) (List.removelast parts) []
      end
  end.

(** Modelled from the spec: [parseMaybeFactors], which lines 225 and 233
    call and no source file defines.  The specification has the known
    factors of a factoring line optional: a trailing token, if present and
    shaped as a quoted list, becomes [knownFactors], and the absence of a
    list is not an error (the comment of line 227 writes the list in
    brackets).  So on an empty vector the helper succeeds and changes
    nothing; on a token it does what [parsePartsFactors] does. *)
Definition parseMaybeFactors (entry : WorktodoEntry) (parts : list string) : run :=
  match parts with
  | [] => Run true entry parts []
  | _ :: _ => parsePartsFactors entry parts
  end.

Definition parseKbnc (entry : WorktodoEntry) (kbnc : list string) : run :=
  match kbnc with
  | p0 :: p1 :: p2 :: p3 :: tl =>
      match Conv.stoul p0 with
      | None => Run false entry kbnc []
      | Some vk =>
          let e1 := set_k entry (Conv.to_u32 vk) in
          match Conv.stoul p1 with
          | None => Run false e1 kbnc []
          | Some vb =>
              let e2 := set_b e1 (Conv.to_u32 vb) in
              match Conv.stoul p2 with
              | None => Run false e2 kbnc []
              | Some vn =>
                  let e3 := set_exponent e2 (Conv.to_u32 vn) in
                  match Conv.stoi p3 with
                  | None => Run false e3 kbnc []
                  | Some vc =>
                      let e4 := set_c e3 vc in
                      if (k e4 =? 0) || (b e4 <? 2) || (exponent e4 =? 0)
                      then Run false e4 kbnc [cerr "Skip: invalid k,b,n,c values"]
                      else Run true e4 tl []
                  end
              end
          end
      end
  | _ => Run false entry kbnc [cerr "Skip: not enough parts for k,b,n,c"]
  end.

Definition parseExponent (entry : WorktodoEntry) (parts : list string) : run :=
  match parts with
  | [] => Run false entry parts []
  | p0 :: tl =>
      match Conv.stoul p0 with
      | None => Run false entry parts []
      | Some v =>
          let e1 := set_exponent entry (Conv.to_u32 v) in
          if exponent e1 =? 0
          then Run false e1 parts [cerr "Skip: invalid exponent 0"]
          else Run true e1 tl []
      end
  end.

(** [parts[0]] is read without a check: on an empty vector the behaviour is
    undefined, which is [None] here. *)
Definition parseExponentOrKbnc (entry : WorktodoEntry) (parts : list string)
    : option run :=
  match parts with
  | [] => None
  | p0 :: _ =>
      if Str.eqb p0 "1" then
        let r := parseKbnc entry parts in
        if ok r then Some r
        else
          let r' := parseExponent (ent r) (rest r) in
          Some (Run (ok r') (ent r') (rest r') (out r ++ out r'))
      else Some (parseExponent entry parts)
  end.

Definition parseMandatorySomething (entry : WorktodoEntry) (parts : list string) : run :=
  match parts with
  | [] => Run false entry parts []
  | _ :: tl => Run true entry tl []
  end.

(** ** The decoder of one line *)

(** How the body of the [while] loop of [parse] ends for a line. *)
Inductive outcome : Type :=
  | Loaded (entry : WorktodoEntry)   (* [return entry] *)
  | Skipped                          (* [continue] *)
  | Undefined.                       (* an element was read out of range *)

Definition decoded : Type := outcome * list msg.

(** [if (!helper(entry, parts)) continue;] followed by the rest of the body. *)
Definition guard (r : run) (body : WorktodoEntry -> list string -> decoded) : decoded :=
  if ok r then
    let '(o, printed) := body (ent r) (rest r) in (o, out r ++ printed)
  else (Skipped, out r).

(** [if (!helper(entry, parts)) CONTINUE_WITH_REASON(reason)]. *)
Definition guard_reason (r : run) (reason : string)
    (body : WorktodoEntry -> list string -> decoded) : decoded :=
  if ok r then
    let '(o, printed) := body (ent r) (rest r) in (o, out r ++ printed)
  else (Skipped, out r ++ [cerr reason]).

(** [if (!cond) CONTINUE_WITH_REASON(reason)]. *)
Definition require (cond : bool) (reason : string) (body : decoded) : decoded :=
  if cond then body else (Skipped, [cerr reason]).

(** The placeholder of an absent assignment ID, lines 203-204. *)
Definition dropPlaceholder (parts : list string) : list string :=
  match parts with
  | p0 :: tl => if Str.empty p0 || Str.eqb p0 "N/A" then tl else parts
  | [] => parts
  end.

(** The assignment ID, lines 206-210: [(aid, parts)]. *)
Definition takeAid (isFactoring : bool) (parts : list string) : string * list string :=
  match parts with
  | p0 :: tl =>
      if isHex p0 || (isFactoring && Str.eqb p0 "AID") then (p0, tl)
      else (EmptyString, parts)
  | [] => (EmptyString, parts)
  end.

(** Lines 252-254: [if (parts.size >= 2) parts.erase(begin, begin + 2)],
    the size read as [parts.size()]. *)
Definition dropPair (parts : list string) : list string :=
  if (2 <=? length parts)%nat then drop 2 parts else parts.

Section Decoder.

(** [math::Cofactor::validateFactors], the external validation predicate. *)
Variable validateFactors : Z -> list string -> bool.

(** [static_cast<uint64_t>(std::stod(s))], [None] when [std::stod] throws.
    The floating-point conversion is left to the platform; so is the cast
    of a value outside the range of [uint64_t], which C++ leaves undefined
    and which is given no outcome of its own here. *)
Variable stod_u64 : string -> option Z.

Definition parseFactoringOpts (entry : WorktodoEntry) (parts : list string) : run :=
  match parts with
  | p0 :: p1 :: tl =>
      match Conv.stoull p0 with
      | None => Run false entry parts []
      | Some b1 =>
          match stod_u64 p1 with
          | None => Run false (set_options entry (factoring b1 0)) parts []
          | Some b2 =>
              let e1 := set_options entry (factoring b1 b2) in
              if (b1 =? 0) || (b2 <? b1)
              then Run false e1 parts [cerr "Skip: invalid B1,B2 values"]
              else Run true e1 tl []
          end
      end
  | _ => Run false entry parts [cerr "Skip: not enough parts for B1,B2"]
  end.

(** Lines 215-225. The result of the last call is not looked at. *)
Definition parsePF (entry : WorktodoEntry) (parts : list string) : decoded :=
  match parseExponentOrKbnc entry parts with
  | None => (Undefined, [])
  | Some r =>
      guard r (fun entry parts =>
      require (isMersenne entry)
        "Skip unsupported PFactor line (only Mersenne supported)" (
      guard_reason (parseMandatorySomething entry parts)
        "Bad PFactor line (missing how_far_factored)" (fun entry parts =>
      guard_reason (parseMandatorySomething entry parts)
        "Bad PFactor line (missing ll_tests_saved_if_factor_found)" (fun entry parts =>
      guard (parseFactoringOpts entry parts) (fun entry parts =>
      let r := parseMaybeFactors entry parts in
      (Loaded (ent r), out r))))))
  end.

(** Lines 226-233. *)
Definition parsePM1 (entry : WorktodoEntry) (parts : list string) : decoded :=
  guard (parseKbnc entry parts) (fun entry parts =>
  require (isMersenne entry)
    "Skip unsupported Pminus1 line (only Mersenne supported)" (
  guard (parseFactoringOpts entry parts) (fun entry parts =>
  guard_reason (parseMandatorySomething entry parts)
    "Bad Pminus1 line (missing how_far_factored)" (fun entry parts =>
  guard (parseMaybeFactors entry parts) (fun entry parts =>
  (Loaded entry, [])))))).

(** Lines 234-238. *)
Definition parseLL (entry : WorktodoEntry) (parts : list string) : decoded :=
  guard (parseExponent entry parts) (fun entry parts =>
  guard_reason (parseMandatorySomething entry parts)
    "Bad LL line (missing how_far_factored)" (fun entry parts =>
  guard_reason (parseMandatorySomething entry parts)
    "Bad LL line (missing has_been_pminus1ed)" (fun entry parts =>
  (Loaded entry, [])))).

(** Lines 242-249: the known factors of a PRP line, once k,b,n,c are read. *)
Definition prpFactors (entry : WorktodoEntry) (parts : list string) : run :=
  let n := length parts in
  if Nat.eqb n 1 || Nat.eqb n 3 || Nat.eqb n 5 then
    let r := parsePartsFactors entry parts in
    if negb (ok r) then
      Run false (ent r) (rest r) (out r ++ [cerr "Bad PRP line (bad known factors part)"])
    else if isMersenne (ent r) then
      if negb (validateFactors (exponent (ent r)) (knownFactors (ent r))) then
        Run false (ent r) (rest r)
          (out r ++ [cerr "Skip PRP line: invalid known factors for exponent"])
      else Run true (set_options (ent r) (primality 5)) (rest r) (out r)
    else r
  else Run true entry parts [].

(** Lines 256-269: the optional pair base, residue type. *)
Definition prpBaseResidue (entry : WorktodoEntry) (parts : list string) : decoded :=
  match parts with
  | p0 :: p1 :: tl =>
      match Conv.stoul p0 with
      | None => (Skipped, [])
      | Some vbase =>
          match Conv.stoul p1 with
          | None => (Skipped, [])
          | Some vrt =>
              let base := Conv.to_u32 vbase in
              let rt := Conv.to_u32 vrt in
              if base <? 2 then (Skipped, [cerr "Skip PRP line: invalid base < 2"])
              else if negb (base =? 3)
              then (Skipped, [cerr "Skip PRP line: only base 3 implemented"])
              else if negb (rt =? residueType_of entry)
              then (Loaded entry, [residue_warning rt (residueType_of entry)])
              else (Loaded entry, [])
          end
      end
  | _ => (Loaded entry, [])
  end.

(** Lines 250-270: the supported forms, then how_far_factored and
    tests_saved are dropped when present, then the optional pair. *)
Definition prpTail (entry : WorktodoEntry) (parts : list string) : decoded :=
  require (isMersenne entry || isWagstaff entry)
    "Skip unsupported PRP line (only Mersenne and Wagstaff supported)" (
  prpBaseResidue entry (dropPair parts)).

(** Lines 239-270. *)
Definition parsePRP (entry : WorktodoEntry) (parts : list string) : decoded :=
  guard (parseKbnc entry parts) (fun entry parts =>
  guard (prpFactors entry parts) prpTail).

(** The body of the loop of [parse] for one line, lines 186-273.  The
    line [Loaded ...] printed for an accepted entry is left out. *)
Definition decodeLine (line : string) : decoded :=
  if Str.empty line then (Skipped, [])
  else if match Str.front line with Some ch => Chars.eqb ch "#"%char | None => false end
  then (Skipped, [])
  else
    match util_split line "="%char with
    | top0 :: top1 :: _ =>
        let isPRP := Str.eqb top0 "PRP" || Str.eqb top0 "PRPDC" in
        let isLL := Str.eqb top0 "Test" || Str.eqb top0 "DoubleCheck" in
        let isPF := Str.eqb top0 "PFactor" in
        let isPM1 := Str.eqb top0 "Pminus1" in
        if negb (isLL || isPRP || isPF || isPM1) then
          (Skipped, [cerr ("Skip unsupported test type: " +:+ top0)])
        else
          let ty :=
            if isLL then TESTTYPE_LL
            else if isPRP then TESTTYPE_PRP
            else TESTTYPE_PM1 in
          let parts := dropPlaceholder (splitRespectingQuotes top1 ","%char) in
          let '(aid, parts) := takeAid (isPF || isPM1) parts in
          let entry := set_aid (set_rawLine (set_testType defaultEntry ty) line) aid in
          if isPF then parsePF entry parts
          else if isPM1 then parsePM1 entry parts
          else if isLL then parseLL entry parts
          else parsePRP entry parts
    | _ => (Skipped, [])
    end.

(** The [while (std::getline(file, line))] loop of [parse]. *)
Fixpoint parseLines (filename_ : string) (lines : list string) : decoded :=
  match lines with
  | line :: lines' =>
      match decodeLine line with
      | (Skipped, printed) =>
          let '(o, printed') := parseLines filename_ lines' in
          (o, printed ++ printed')
      | done => done
      end
  | [] =>
      (Skipped, [cerr ("No valid entry found in " +:+ Str.line filename_)])
  end.

(** [WorktodoParser::parse]: [Loaded entry] is the returned entry,
    [Skipped] is [std::nullopt]. *)
Definition parse (filename_ : string) (fs : gmap string string) : decoded :=
  match fs !! filename_ with
  | None => (Skipped, [cerr ("Cannot open " +:+ Str.line filename_)])
  | Some content => parseLines filename_ (getlines content)
  end.

End Decoder.

(** ** The queue rewrite *)

Definition archivePath : string := "worktodo_save.txt".

(** The loop of [removeFirstProcessed], lines 292-299: the flag, what was
    written to the temporary file and what was written to the archive. *)
Fixpoint archiveLoop (lines : list string) (skipped : bool)
    (tempOut saveOut : string) : bool * string * string :=
  match lines with
  | line :: lines' =>
      if negb skipped && negb (Str.empty line) then
        archiveLoop lines' true tempOut (saveOut +:+ Str.line line)
      else
        archiveLoop lines' skipped (tempOut +:+ Str.line line) saveOut
  | [] => (skipped, tempOut, saveOut)
  end.

(** [std::ofstream f(path)]: the file is created or truncated. *)
Definition openTrunc (path : string) (fs : gmap string string) : gmap string string :=
  <[path := EmptyString]> fs.

(** [std::ofstream f(path, std::ios::app)]: the file is created when absent. *)
Definition openAppend (path : string) (fs : gmap string string) : gmap string string :=
  match fs !! path with
  | Some _ => fs
  | None => <[path := EmptyString]> fs
  end.

(** What was written to a stream reaches its file. *)
Definition flush (path : string) (written : string) (fs : gmap string string)
    : gmap string string :=
  match fs !! path with
  | Some old => <[path := old +:+ written]> fs
  | None => fs
  end.

(** [std::rename(from, to)]. *)
Definition rename (from to : string) (fs : gmap string string) : gmap string string :=
  match fs !! from with
  | Some data => <[to := data]> (delete from fs)
  | None => fs
  end.

(** [WorktodoParser::removeFirstProcessed].  The three streams are opened
    before anything is tested; the queue is read as it was when opened; an
    output stream opens whenever it is asked to. *)
Definition removeFirstProcessed (filename_ : string) (fs : gmap string string)
    : bool * gmap string string :=
  let tmp := filename_ +:+ ".tmp" in
  let inFile := fs !! filename_ in
  let fs := openTrunc tmp fs in
  let fs := openAppend archivePath fs in
  match inFile with
  | None => (false, fs)
  | Some content =>
      let '(skipped, tempOut, saveOut) :=
        archiveLoop (getlines content) false EmptyString EmptyString in
      let fs := flush tmp tempOut fs in
      let fs := flush archivePath saveOut fs in
      let fs := delete filename_ fs in
      let fs := rename tmp filename_ fs in
      (skipped, fs)
  end.

(** A conversion for the examples: the integer part of a plain decimal
    literal, which is what [std::stod] and the cast give for the whole
    numbers below 2^53 written in digits. *)
Definition stod_u64_plain (s : string) : option Z :=
  match Conv.magnitude s with
  | Some (false, v) => Some v
  | _ => None
  end.

Definition acceptFactors (n : Z) (factors : list string) : bool := true.
Definition rejectFactors (n : Z) (factors : list string) : bool := false.

(** ** Notions used to state the properties *)

(** The tokens of [s], the first one continuing [current]. *)
Definition continue_with (current : string) (tokens : list string) : list string :=
  match tokens with
  | [] => if Str.empty current then [] else [current]
  | t :: ts => (current +:+ t) :: ts
  end.

Fixpoint tokens_of (delim : ascii) (s : string) : list string :=
  match s with
  | EmptyString => []
  | String ch s' =>
      if Chars.eqb ch delim then EmptyString :: tokens_of delim s'
      else continue_with (String ch EmptyString) (tokens_of delim s')
  end.

(** A line holds no line feed. *)
Fixpoint no_newline (s : string) : Prop :=
  match s with
  | EmptyString => True
  | String ch s' => ch <> Chars.newline /\ no_newline s'
  end.

(** The lines written back, a line feed after each. *)
Fixpoint unlines (lines : list string) : string :=
  match lines with
  | [] => EmptyString
  | l :: ls => Str.line l +:+ unlines ls
  end.

(** ** Sample inputs *)

Definition queuePath : string := "worktodo.txt".

(** A queue file that exists and is empty; there is no archive yet. *)
Definition emptyQueue : gmap string string := {[ queuePath := EmptyString ]}.

(** Two blank lines, then a job with trailing spaces, then another job. *)
Definition sampleQueue : gmap string string :=
  {[ queuePath :=
       unlines [EmptyString; EmptyString; "Test=1277,70,0  "; "PRP=1,2,89,-1"] ]}.

(** The lines the properties are tried on. *)
Definition line_pminus1 : string := "Pminus1=1,2,1277,-1,1000,50000,70".
Definition line_pfactor : string := "PFactor=1277,70,5".
Definition line_test : string := "Test=1277,70,0".
Definition line_prp_unquoted : string := "PRP=1,2,89,-1,77".
Definition line_prp_cofactor : string := "PRP=1,2,89,-1," +:+ Str.quoted "3".
Definition line_prp_gap : string := "PRP=1,2,89,1," +:+ Str.quoted "3,,5".
Definition line_prp_residue : string := "PRP=1,2,89,-1,75,0,3,5".

(** A queue of blank lines only. *)
Definition blankQueue : gmap string string :=
  {[ queuePath := unlines [EmptyString; EmptyString] ]}.

(** The fields a helper that reads numbers or drops tokens leaves alone. *)
Definition same_head (e e' : WorktodoEntry) : Prop :=
  testType e' = testType e /\ aid e' = aid e /\ rawLine e' = rawLine e.

Definition same_number (e e' : WorktodoEntry) : Prop :=
  k e' = k e /\ b e' = b e /\ c e' = c e /\ exponent e' = exponent e.

(** A token of exactly 32 hexadecimal digits. *)
Definition hexDigit (ch : ascii) : Prop :=
  In ch (list_ascii_of_string "0123456789abcdefABCDEF").

Definition hex32 (s : string) : Prop :=
  String.length s = 32%nat /\ Forall hexDigit (list_ascii_of_string s).

(** The entry the sample Test line decodes to. *)
Definition testEntry : WorktodoEntry :=
  mkEntry TESTTYPE_LL 1277 0 0 0 EmptyString line_test [] (primality 1).


(** The entry the sample line with an empty factor decodes to. *)
Definition gapEntry : WorktodoEntry :=
  mkEntry TESTTYPE_PRP 89 1 2 1 EmptyString line_prp_gap
    ["3"; EmptyString; "5"] (primality 1).

(** ** Notions used to state further properties *)

(** What the lines print, in order, under a decoder. *)
Definition printedBy (decode : string -> decoded) (lines : list string) : list msg :=
  concat (map (fun l => (decode l).2) lines).

(** The lines that are not empty, and the empty ones. *)
Definition nonEmptyLines (lines : list string) : list string :=
  List.filter (fun l => negb (Str.empty l)) lines.

Definition blankLines (lines : list string) : list string :=
  List.filter Str.empty lines.

(** [n] calls of [removeFirstProcessed] in a row: what they returned and
    the files after the last one. *)
Fixpoint removeRepeatedly (n : nat) (filename_ : string) (fs : gmap string string)
    : list bool * gmap string string :=
  match n with
  | O => ([], fs)
  | S n' =>
      let '(b, fs1) := removeFirstProcessed filename_ fs in
      let '(bs, fs2) := removeRepeatedly n' filename_ fs1 in
      (b :: bs, fs2)
  end.

(** A text without the character [c]. *)
Fixpoint no_char (c : ascii) (s : string) : Prop :=
  match s with
  | EmptyString => True
  | String ch s' => ch <> c /\ no_char c s'
  end.

(** A queue whose first line is a comment, followed by a job. *)
Definition commentQueue : gmap string string :=
  {[ queuePath := unlines ["# next"; line_test] ]}.

(** A queue with two skipped lines before a job and a line after it. *)
Definition mixedQueue : gmap string string :=
  {[ queuePath := unlines ["# next"; "Foo=1"; line_test; "PFactor=AID"] ]}.

(** What follows the last line feed of a file is a line when it is not
    empty. *)
Definition lastLine (tail : string) : list string :=
  if Str.empty tail then [] else [tail].

(** A queue written out character by character: two blank lines, a job
    that ends with two spaces, and a last job without a line feed; the
    archive already holds a line. *)
Definition openEndedQueue : gmap string string :=
  {[ queuePath :=
       String "010" (String "010"
         ("Test=1277,70,0  " +:+ String "010" "PRP=1,2,89,-1"));
     archivePath := "Test=89,70,0" +:+ String "010" EmptyString ]}.

(** A PRP line in cofactor mode whose residue-type token reads 1. *)
Definition line_prp_cofactor_residue : string :=
  "PRP=1,2,89,-1,75,0,3,1," +:+ Str.quoted "3".

(** A file system without the queue file. *)
Definition noQueue : gmap string string := {[ "other.txt" := "kept" ]}.

(** Line 186 lets the line through: it is neither empty nor a comment. *)
Definition scanned (line : string) : bool :=
  negb (Str.empty line) &&
  negb (match Str.front line with Some ch => Chars.eqb ch "#"%char | None => false end).

(** The entry a line starts from, lines 191-213. *)
Definition lineEntry (ty : TestType) (line aid : string) : WorktodoEntry :=
  set_aid (set_rawLine (set_testType defaultEntry ty) line) aid.

(** The field tokens of a payload: the placeholder dropped, the assignment
    ID taken. *)
Definition fieldTokens (isFactoring : bool) (payload : string) : string * list string :=
  takeAid isFactoring (dropPlaceholder (splitRespectingQuotes payload ","%char)).

(** ** The trimming lambda of [parse], lines 178-183

    [parse] defines it and does not call it. *)

(** A character of the set [" \t\r\n"]. *)
Definition isBlank (ch : ascii) : bool :=
  Chars.eqb ch " "%char || Chars.eqb ch "009"%char
  || Chars.eqb ch "013"%char || Chars.eqb ch "010"%char.

(** [s.find_first_not_of(" \t\r\n")], [None] for [npos]. *)
Fixpoint find_first_not_of (s : string) : option nat :=
  match s with
  | EmptyString => None
  | String ch s' =>
      if isBlank ch then option_map S (find_first_not_of s') else Some O
  end.

(** [s.find_last_not_of(" \t\r\n")], [None] for [npos]. *)
Fixpoint find_last_not_of (s : string) : option nat :=
  match s with
  | EmptyString => None
  | String ch s' =>
      match find_last_not_of s' with
      | Some i => Some (S i)
      | None => if isBlank ch then None else Some O
      end
  end.

(** [trim_inplace]: with [b = npos] the count [b - a + 1] wraps around and
    [substr] takes the rest of the string. *)
Definition trim_inplace (s : string) : string :=
  match find_first_not_of s with
  | None => EmptyString
  | Some a =>
      match find_last_not_of s with
      | Some b => String.substring a (b - a + 1) s
      | None => String.substring a (String.length s - a) s
      end
  end.

(** * Facts about the conversions *)

Module ConvFacts.

Lemma to_u32_range (v : Z) : 0 <= Conv.to_u32 v < 2 ^ 32.
Proof. unfold Conv.to_u32. apply Z.mod_pos_bound. lia. Qed.

End ConvFacts.

Example stoul_decimal : Conv.stoul "1277" = Some 1277.
Proof. reflexivity. Qed.

Example stoul_minus_wraps : Conv.stoul " -1x" = Some (2 ^ 64 - 1).
Proof. reflexivity. Qed.

Example stoul_above_range : Conv.stoul "18446744073709551616" = None.
Proof. reflexivity. Qed.

Example stoi_minus_one : Conv.stoi "-1" = Some (-1).
Proof. reflexivity. Qed.

Example stoi_above_range : Conv.stoi "2147483648" = None.
Proof. reflexivity. Qed.

Example stoul_no_digit : Conv.stoul "N/A" = None.
Proof. reflexivity. Qed.

(** * Facts about strings and the tokenizers *)

Module StrFacts.

Lemma eqb_spec (x y : string) : Str.eqb x y = true <-> x = y.
Proof. apply String.eqb_eq. Qed.

Lemma app_cons (ch : ascii) (s t : string) :
  String ch s +:+ t = String ch (s +:+ t).
Proof. reflexivity. Qed.

Lemma app_nil_r (s : string) : s +:+ EmptyString = s.
Proof. induction s as [|ch s IH]; [reflexivity|]. now rewrite app_cons, IH. Qed.

Lemma app_assoc (s t u : string) : (s +:+ t) +:+ u = s +:+ (t +:+ u).
Proof.
  induction s as [|ch s IH]; [reflexivity|]. now rewrite !app_cons, IH.
Qed.

Lemma empty_true (s : string) : Str.empty s = true <-> s = EmptyString.
Proof. destruct s; simpl; split; congruence. Qed.

Lemma empty_false (s : string) : Str.empty s = false <-> s <> EmptyString.
Proof. destruct s; simpl; split; congruence. Qed.

Lemma empty_push_back (s : string) (ch : ascii) :
  Str.empty (Str.push_back s ch) = false.
Proof. destruct s; reflexivity. Qed.

Lemma length_app (s t : string) :
  String.length (s +:+ t) = (String.length s + String.length t)%nat.
Proof.
  induction s as [|ch s IH]; [reflexivity|].
  rewrite app_cons. simpl. now rewrite IH.
Qed.

Lemma back_app_cons (s : string) (ch : ascii) (t : string) :
  Str.back (s +:+ String ch t) = Str.back (String ch t).
Proof.
  induction s as [|x s IH]; [reflexivity|].
  rewrite app_cons.
  change (Str.back (String x (s +:+ String ch t)))
    with (match s +:+ String ch t with
          | EmptyString => Some x
          | String _ _ => Str.back (s +:+ String ch t)
          end).
  destruct (s +:+ String ch t) eqn:E; [|exact IH].
  destruct s; discriminate E.
Qed.

End StrFacts.

(** The temporary file is neither the queue file nor the archive. *)
Lemma tmp_neq_queue (filename_ : string) : filename_ +:+ ".tmp" <> filename_.
Proof.
  intros E. apply (f_equal String.length) in E.
  rewrite StrFacts.length_app in E. simpl in E. lia.
Qed.

Lemma tmp_neq_archive (filename_ : string) : filename_ +:+ ".tmp" <> archivePath.
Proof.
  intros E. apply (f_equal Str.back) in E.
  rewrite StrFacts.back_app_cons in E. discriminate E.
Qed.

(** ** The tokenizer, recursively on the text *)

Lemma continue_with_empty (tokens : list string) :
  continue_with EmptyString tokens = tokens.
Proof. destruct tokens; reflexivity. Qed.

Lemma continue_with_push (current : string) (ch : ascii) (tokens : list string) :
  continue_with current (continue_with (String ch EmptyString) tokens)
  = continue_with (Str.push_back current ch) tokens.
Proof.
  destruct tokens as [|t ts]; simpl.
  - rewrite StrFacts.empty_push_back. reflexivity.
  - unfold Str.push_back. rewrite StrFacts.app_assoc. reflexivity.
Qed.

Lemma getline_loop_tokens (delim : ascii) (s : string) :
  forall result current,
    getline_loop delim s result current
    = result ++ continue_with current (tokens_of delim s).
Proof.
  induction s as [|ch s IH]; intros result current; simpl.
  - destruct (Str.empty current); [now rewrite app_nil_r | reflexivity].
  - destruct (Chars.eqb ch delim).
    + rewrite IH, continue_with_empty, <- app_assoc. simpl.
      rewrite StrFacts.app_nil_r. reflexivity.
    + rewrite IH, continue_with_push. reflexivity.
Qed.

Lemma getlines_tokens (content : string) :
  getlines content = tokens_of Chars.newline content.
Proof.
  unfold getlines. rewrite getline_loop_tokens. simpl.
  apply continue_with_empty.
Qed.

Lemma getlines_no_newline (content : string) :
  Forall no_newline (getlines content).
Proof.
  rewrite getlines_tokens.
  induction content as [|ch s IH]; simpl; [constructor|].
  destruct (Chars.eqb ch Chars.newline) eqn:E.
  - constructor; [exact I | exact IH].
  - assert (ch <> Chars.newline) as Hne.
    { intros ->. unfold Chars.eqb in E. rewrite Ascii.eqb_refl in E. discriminate. }
    destruct (tokens_of Chars.newline s) as [|t ts]; simpl.
    + repeat constructor; assumption.
    + inversion IH; subst. constructor; [|assumption].
      rewrite StrFacts.app_cons. simpl. split; assumption.
Qed.

Lemma tokens_of_line (l : string) (s : string) :
  no_newline l ->
  tokens_of Chars.newline (Str.line l +:+ s) = l :: tokens_of Chars.newline s.
Proof.
  induction l as [|ch l IH]; intros Hl.
  - reflexivity.
  - destruct Hl as [Hch Hl].
    unfold Str.line in *. rewrite !StrFacts.app_cons. simpl.
    assert (Chars.eqb ch Chars.newline = false) as ->.
    { destruct (Chars.eqb ch Chars.newline) eqn:E; [|reflexivity].
      apply Ascii.eqb_eq in E. contradiction. }
    rewrite (IH Hl). reflexivity.
Qed.

Lemma getlines_unlines (lines : list string) :
  Forall no_newline lines -> getlines (unlines lines) = lines.
Proof.
  rewrite getlines_tokens.
  induction 1 as [|l ls Hl _ IH]; simpl; [reflexivity|].
  rewrite tokens_of_line by assumption. now rewrite IH.
Qed.

(** Every text is a sequence of lines that end with a line feed, followed
    by a text without a line feed. *)
Lemma text_decomposition (content : string) :
  exists (terminated : list string) (tail : string),
    content = unlines terminated +:+ tail /\
    Forall no_newline terminated /\ no_newline tail.
Proof.
  induction content as [|ch s (ls & tail & -> & Hls & Htail)].
  - exists [], EmptyString. repeat split. constructor.
  - destruct (Chars.eqb ch Chars.newline) eqn:E.
    + apply Ascii.eqb_eq in E. subst ch.
      exists (EmptyString :: ls), tail. split; [reflexivity|].
      split; [constructor; [exact I | exact Hls] | exact Htail].
    + assert (ch <> Chars.newline) as Hne.
      { intros ->. unfold Chars.eqb in E. rewrite Ascii.eqb_refl in E. discriminate. }
      destruct ls as [|l0 ls'].
      * exists [], (String ch tail). split; [reflexivity|].
        split; [constructor | split; assumption].
      * exists (String ch l0 :: ls'), tail. split; [reflexivity|].
        inversion Hls; subst.
        split; [constructor; [split; assumption | assumption] | exact Htail].
Qed.

Lemma tokens_of_tail (tail : string) :
  no_newline tail ->
  tokens_of Chars.newline tail = if Str.empty tail then [] else [tail].
Proof.
  induction tail as [|ch t IH]; [reflexivity|].
  intros [Hch Ht]. simpl.
  assert (Chars.eqb ch Chars.newline = false) as ->.
  { destruct (Chars.eqb ch Chars.newline) eqn:E; [|reflexivity].
    apply Ascii.eqb_eq in E. contradiction. }
  rewrite (IH Ht). destruct t; reflexivity.
Qed.

(** The lines read from such a text. *)
Lemma getlines_unlines_tail (terminated : list string) (tail : string) :
  Forall no_newline terminated -> no_newline tail ->
  getlines (unlines terminated +:+ tail)
  = terminated ++ (if Str.empty tail then [] else [tail]).
Proof.
  intros Hls Htail. rewrite getlines_tokens.
  induction Hls as [|l ls Hl _ IH].
  - change (unlines [] +:+ tail) with tail. now apply tokens_of_tail.
  - change (unlines (l :: ls)) with (Str.line l +:+ unlines ls).
    rewrite StrFacts.app_assoc, tokens_of_line by assumption.
    now rewrite IH.
Qed.

(** A text whose lines are all empty is its lines written back. *)
Lemma unlines_getlines_blank (content : string) :
  Forall (fun l => l = EmptyString) (getlines content) ->
  unlines (getlines content) = content.
Proof.
  rewrite getlines_tokens.
  induction content as [|ch s IH]; simpl; [reflexivity|].
  destruct (Chars.eqb ch Chars.newline) eqn:E.
  - apply Ascii.eqb_eq in E. subst ch. intros H. inversion H; subst.
    simpl. rewrite IH by assumption. reflexivity.
  - destruct (tokens_of Chars.newline s); simpl; intros H; inversion H; subst; discriminate.
Qed.

(** * The queue rewrite *)

Lemma archiveLoop_after (lines : list string) (tempOut saveOut : string) :
  archiveLoop lines true tempOut saveOut = (true, tempOut +:+ unlines lines, saveOut).
Proof.
  revert tempOut. induction lines as [|l ls IH]; intros tempOut; simpl.
  - now rewrite StrFacts.app_nil_r.
  - rewrite IH, StrFacts.app_assoc. reflexivity.
Qed.

Lemma archiveLoop_blank (lines : list string) (tempOut saveOut : string) :
  Forall (fun l => l = EmptyString) lines ->
  archiveLoop lines false tempOut saveOut = (false, tempOut +:+ unlines lines, saveOut).
Proof.
  intros H. revert tempOut.
  induction H as [|l ls -> _ IH]; intros tempOut; simpl.
  - now rewrite StrFacts.app_nil_r.
  - rewrite IH, StrFacts.app_assoc. reflexivity.
Qed.

Lemma archiveLoop_first (pre post : list string) (l tempOut saveOut : string) :
  Forall (fun l => l = EmptyString) pre ->
  l <> EmptyString ->
  archiveLoop (pre ++ l :: post) false tempOut saveOut
  = (true, tempOut +:+ unlines (pre ++ post), saveOut +:+ Str.line l).
Proof.
  intros Hpre Hl. revert tempOut.
  induction Hpre as [|x pre -> _ IH]; intros tempOut; simpl.
  - apply StrFacts.empty_false in Hl. rewrite Hl. simpl.
    apply archiveLoop_after.
  - rewrite IH, StrFacts.app_assoc. reflexivity.
Qed.

(** The first non-empty line of a list that has one. *)
Lemma first_nonempty (lines : list string) :
  Exists (fun l => l <> EmptyString) lines ->
  exists pre l post,
    lines = pre ++ l :: post /\
    Forall (fun l => l = EmptyString) pre /\ l <> EmptyString.
Proof.
  induction lines as [|x xs IH]; intros H.
  - inversion H.
  - destruct x as [|ch x'].
    + inversion H as [? ? Hx|? ? Hxs]; subst; [congruence|].
      destruct (IH Hxs) as (pre & l & post & -> & Hpre & Hl).
      exists (EmptyString :: pre), l, post. repeat split; auto.
    + exists [], (String ch x'), xs. repeat split; auto; discriminate.
Qed.

(** The file system after a run on an existing queue file, in terms of
    what the loop produced. *)
Lemma removeFirstProcessed_run (filename_ : string) (fs : gmap string string)
    (content tempOut saveOut : string) (skipped : bool) :
  fs !! filename_ = Some content ->
  archiveLoop (getlines content) false EmptyString EmptyString
    = (skipped, tempOut, saveOut) ->
  let fs' := (removeFirstProcessed filename_ fs).2 in
  (removeFirstProcessed filename_ fs).1 = skipped /\
  fs' !! filename_ = Some tempOut /\
  fs' !! (filename_ +:+ ".tmp") = None /\
  (filename_ <> archivePath ->
   fs' !! archivePath = Some (default EmptyString (fs !! archivePath) +:+ saveOut)) /\
  (forall p, p <> filename_ -> p <> filename_ +:+ ".tmp" -> p <> archivePath ->
             fs' !! p = fs !! p).
Proof.
  intros Hin Hloop.
  pose proof (tmp_neq_queue filename_) as Htq.
  pose proof (tmp_neq_archive filename_) as Hta.
  set (tmp := filename_ +:+ ".tmp") in *.
  set (fs1 := openTrunc tmp fs).
  set (fs2 := openAppend archivePath fs1).
  assert (fs2 !! tmp = Some EmptyString) as H2t.
  { unfold fs2, openAppend, fs1, openTrunc.
    destruct (<[tmp:=EmptyString]> fs !! archivePath);
      [|rewrite lookup_insert_ne by congruence]; apply lookup_insert_eq. }
  assert (fs2 !! archivePath = Some (default EmptyString (fs !! archivePath))) as H2a.
  { unfold fs2, openAppend, fs1, openTrunc.
    rewrite lookup_insert_ne by assumption.
    destruct (fs !! archivePath) eqn:E; simpl.
    - rewrite lookup_insert_ne by assumption. exact E.
    - apply lookup_insert_eq. }
  assert (forall p, p <> tmp -> p <> archivePath -> fs2 !! p = fs !! p) as H2o.
  { intros p Hpt Hpa. unfold fs2, openAppend, fs1, openTrunc.
    destruct (<[tmp:=EmptyString]> fs !! archivePath);
      rewrite ?(lookup_insert_ne _ archivePath p) by congruence;
      apply lookup_insert_ne; congruence. }
  set (fs3 := <[tmp:=tempOut]> fs2).
  set (fs4 := <[archivePath:=default EmptyString (fs !! archivePath) +:+ saveOut]> fs3).
  assert (removeFirstProcessed filename_ fs
          = (skipped, <[filename_:=tempOut]> (delete tmp (delete filename_ fs4)))) as ->.
  { unfold removeFirstProcessed. fold tmp. rewrite Hin. fold fs1. fold fs2.
    rewrite Hloop. cbv beta iota zeta.
    assert (flush tmp tempOut fs2 = fs3) as ->.
    { unfold flush. rewrite H2t. reflexivity. }
    assert (flush archivePath saveOut fs3 = fs4) as ->.
    { unfold flush, fs3. rewrite lookup_insert_ne by assumption.
      rewrite H2a. reflexivity. }
    unfold rename.
    assert (delete filename_ fs4 !! tmp = Some tempOut) as ->.
    { rewrite lookup_delete_ne by congruence. unfold fs4.
      rewrite lookup_insert_ne by congruence. apply lookup_insert_eq. }
    reflexivity. }
  cbv zeta. simpl fst. simpl snd.
  split; [reflexivity|].
  repeat split.
  - apply lookup_insert_eq.
  - rewrite lookup_insert_ne by congruence. apply lookup_delete_eq.
  - intros Hqa. rewrite lookup_insert_ne by congruence.
    rewrite !lookup_delete_ne by congruence. apply lookup_insert_eq.
  - intros p Hpq Hpt Hpa. rewrite lookup_insert_ne by congruence.
    rewrite !lookup_delete_ne by congruence. unfold fs4, fs3.
    rewrite !lookup_insert_ne by congruence. apply H2o; assumption.
Qed.

(** C5, as the code has it: on a queue file without a non-empty line the
    call returns false, the queue file ends with the content it had, the
    temporary file is gone, every other file is as before, and the archive
    holds what it held; an archive that did not exist now exists and is
    empty. *)
Theorem blank_queue_rewrite (filename_ : string) (fs : gmap string string)
    (content : string) :
  fs !! filename_ = Some content ->
  Forall (fun l => l = EmptyString) (getlines content) ->
  (removeFirstProcessed filename_ fs).1 = false /\
  (removeFirstProcessed filename_ fs).2 !! filename_ = Some content /\
  (removeFirstProcessed filename_ fs).2 !! (filename_ +:+ ".tmp") = None /\
  (removeFirstProcessed filename_ fs).2 !! archivePath
    = Some (default EmptyString (fs !! archivePath)) /\
  (forall p, p <> filename_ -> p <> filename_ +:+ ".tmp" -> p <> archivePath ->
             (removeFirstProcessed filename_ fs).2 !! p = fs !! p).
Proof.
  intros Hin Hblank.
  pose proof (archiveLoop_blank _ EmptyString EmptyString Hblank) as Hloop.
  rewrite (unlines_getlines_blank _ Hblank) in Hloop.
  destruct (removeFirstProcessed_run _ _ _ _ _ _ Hin Hloop)
    as (Hret & Hq & Ht & Ha & Ho).
  repeat split; try assumption.
  destruct (decide (filename_ = archivePath)) as [Heq|Hne].
  - rewrite <- Heq, Hq, Hin. reflexivity.
  - rewrite (Ha Hne). now rewrite StrFacts.app_nil_r.
Qed.

Lemma blank_queue_rewrite_witness :
  blankQueue !! queuePath = Some (unlines [EmptyString; EmptyString]) /\
  Forall (fun l => l = EmptyString) (getlines (unlines [EmptyString; EmptyString])) /\
  (removeFirstProcessed queuePath blankQueue).1 = false /\
  (removeFirstProcessed queuePath blankQueue).2 !! queuePath
    = Some (unlines [EmptyString; EmptyString]) /\
  (removeFirstProcessed queuePath blankQueue).2 !! archivePath = Some EmptyString.
Proof.
  assert (blankQueue !! queuePath = Some (unlines [EmptyString; EmptyString])) as Hin
    by reflexivity.
  assert (Forall (fun l => l = EmptyString)
            (getlines (unlines [EmptyString; EmptyString]))) as Hblank
    by (repeat constructor).
  destruct (blank_queue_rewrite queuePath blankQueue _ Hin Hblank)
    as (Hret & Hq & _ & Ha & _).
  repeat split; assumption.
Defined.

(** C5 fails as stated: the archive, absent before the call on an empty
    queue file, exists after it. *)
Lemma empty_queue_creates_archive :
  getlines EmptyString = [] /\
  emptyQueue !! queuePath = Some EmptyString /\
  emptyQueue !! archivePath = None /\
  (removeFirstProcessed queuePath emptyQueue).1 = false /\
  (removeFirstProcessed queuePath emptyQueue).2 !! archivePath = Some EmptyString.
Proof. repeat split; vm_compute; reflexivity. Qed.

(** C6: take any queue file, given by its lines: those that end with a
    line feed and what follows the last line feed.  When the first line
    that is not empty is [l], after blank lines [pre] and before the lines
    [post], the call returns true; what it appends to the archive is [l],
    character for character with its trailing white space, and a line
    feed; the queue file is rewritten with [pre] and [post] in order, a
    line feed after each; the temporary file is gone and no other file is
    changed. *)
Theorem first_line_archived (filename_ : string) (fs : gmap string string)
    (terminated pre post : list string) (tail l : string) :
  fs !! filename_ = Some (unlines terminated +:+ tail) ->
  Forall no_newline terminated ->
  no_newline tail ->
  terminated ++ lastLine tail = pre ++ l :: post ->
  Forall (fun x => x = EmptyString) pre ->
  l <> EmptyString ->
  (removeFirstProcessed filename_ fs).1 = true /\
  (removeFirstProcessed filename_ fs).2 !! filename_ = Some (unlines (pre ++ post)) /\
  (removeFirstProcessed filename_ fs).2 !! (filename_ +:+ ".tmp") = None /\
  (filename_ <> archivePath ->
   (removeFirstProcessed filename_ fs).2 !! archivePath
     = Some (default EmptyString (fs !! archivePath)
             +:+ l +:+ String Chars.newline EmptyString)) /\
  (forall p, p <> filename_ -> p <> filename_ +:+ ".tmp" -> p <> archivePath ->
             (removeFirstProcessed filename_ fs).2 !! p = fs !! p).
Proof.
  intros Hin Hterm Htail Hsplit Hpre Hl.
  pose proof (getlines_unlines_tail terminated tail Hterm Htail) as Hlines.
  fold (lastLine tail) in Hlines. rewrite Hsplit in Hlines.
  pose proof (archiveLoop_first pre post l EmptyString EmptyString Hpre Hl) as Hloop.
  rewrite <- Hlines in Hloop.
  change (EmptyString +:+ unlines (pre ++ post)) with (unlines (pre ++ post)) in Hloop.
  change (EmptyString +:+ Str.line l) with (l +:+ String Chars.newline EmptyString)
    in Hloop.
  exact (removeFirstProcessed_run _ _ _ _ _ _ Hin Hloop).
Qed.

Lemma first_line_archived_witness :
  openEndedQueue !! queuePath
    = Some (unlines [EmptyString; EmptyString; "Test=1277,70,0  "] +:+ "PRP=1,2,89,-1") /\
  [EmptyString; EmptyString; "Test=1277,70,0  "] ++ lastLine "PRP=1,2,89,-1"
    = [EmptyString; EmptyString] ++ "Test=1277,70,0  " :: ["PRP=1,2,89,-1"] /\
  (removeFirstProcessed queuePath openEndedQueue).1 = true /\
  (removeFirstProcessed queuePath openEndedQueue).2 !! queuePath
    = Some (String "010" (String "010" ("PRP=1,2,89,-1" +:+ String "010" EmptyString))) /\
  (removeFirstProcessed queuePath openEndedQueue).2 !! archivePath
    = Some ("Test=89,70,0" +:+ String "010"
              ("Test=1277,70,0  " +:+ String "010" EmptyString)).
Proof.
  assert (openEndedQueue !! queuePath
          = Some (unlines [EmptyString; EmptyString; "Test=1277,70,0  "]
                  +:+ "PRP=1,2,89,-1")) as Hin by reflexivity.
  assert ([EmptyString; EmptyString; "Test=1277,70,0  "] ++ lastLine "PRP=1,2,89,-1"
          = [EmptyString; EmptyString] ++ "Test=1277,70,0  " :: ["PRP=1,2,89,-1"])
    as Hsplit by reflexivity.
  destruct (first_line_archived queuePath openEndedQueue
              [EmptyString; EmptyString; "Test=1277,70,0  "]
              [EmptyString; EmptyString] ["PRP=1,2,89,-1"]
              "PRP=1,2,89,-1" "Test=1277,70,0  " Hin)
    as (Hret & Hq & _ & Ha & _).
  - repeat constructor; discriminate.
  - repeat split; discriminate.
  - exact Hsplit.
  - repeat constructor.
  - discriminate.
  - split; [exact Hin|]. split; [exact Hsplit|]. split; [exact Hret|].
    split; [exact Hq|]. apply Ha. discriminate.
Defined.

Example sample_queue_rewritten :
  removeFirstProcessed queuePath sampleQueue
  = (true,
     {[ queuePath := unlines [EmptyString; EmptyString; "PRP=1,2,89,-1"];
        archivePath := unlines ["Test=1277,70,0  "] ]}).
Proof. vm_compute. reflexivity. Qed.

(** * The helpers of the decoder *)

Lemma guard_loaded (r : run) (body : WorktodoEntry -> list string -> decoded)
    (e : WorktodoEntry) (pr : list msg) :
  guard r body = (Loaded e, pr) ->
  ok r = true /\ exists pr', body (ent r) (rest r) = (Loaded e, pr') /\ pr = out r ++ pr'.
Proof.
  unfold guard. destruct (ok r); [|discriminate].
  destruct (body (ent r) (rest r)) as [o l]. intros [= -> <-]. eauto.
Qed.

Lemma guard_reason_loaded (r : run) (reason : string)
    (body : WorktodoEntry -> list string -> decoded)
    (e : WorktodoEntry) (pr : list msg) :
  guard_reason r reason body = (Loaded e, pr) ->
  ok r = true /\ exists pr', body (ent r) (rest r) = (Loaded e, pr') /\ pr = out r ++ pr'.
Proof.
  unfold guard_reason. destruct (ok r); [|discriminate].
  destruct (body (ent r) (rest r)) as [o l]. intros [= -> <-]. eauto.
Qed.

Lemma require_loaded (cond : bool) (reason : string) (body : decoded)
    (e : WorktodoEntry) (pr : list msg) :
  require cond reason body = (Loaded e, pr) ->
  cond = true /\ body = (Loaded e, pr).
Proof. unfold require. destruct cond; [auto | discriminate]. Qed.

(** Peel the guards of a hypothesis [... = (Loaded e, pr)]. *)
Ltac peel H :=
  repeat
    match type of H with
    | guard _ _ = (Loaded _, _) =>
        let Hok := fresh "Hok" in
        let pr' := fresh "pr" in
        let Hpr := fresh "Hpr" in
        apply guard_loaded in H as (Hok & pr' & H & Hpr)
    | guard_reason _ _ _ = (Loaded _, _) =>
        let Hok := fresh "Hok" in
        let pr' := fresh "pr" in
        let Hpr := fresh "Hpr" in
        apply guard_reason_loaded in H as (Hok & pr' & H & Hpr)
    | require _ _ _ = (Loaded _, _) =>
        let Hc := fresh "Hcond" in
        apply require_loaded in H as (Hc & H)
    end.

Lemma same_head_refl (e : WorktodoEntry) : same_head e e.
Proof. repeat split. Qed.

Lemma same_head_trans (e1 e2 e3 : WorktodoEntry) :
  same_head e1 e2 -> same_head e2 e3 -> same_head e1 e3.
Proof. unfold same_head. intuition congruence. Qed.

Lemma same_number_trans (e1 e2 e3 : WorktodoEntry) :
  same_number e1 e2 -> same_number e2 e3 -> same_number e1 e3.
Proof. unfold same_number. intuition congruence. Qed.

Lemma parseKbnc_frame (e : WorktodoEntry) (p : list string) :
  same_head e (ent (parseKbnc e p)) /\
  knownFactors (ent (parseKbnc e p)) = knownFactors e /\
  options (ent (parseKbnc e p)) = options e /\
  rest (parseKbnc e p) `suffix_of` p.
Proof.
  unfold parseKbnc, same_head.
  repeat case_match; simpl; repeat split; try reflexivity;
    by apply (suffix_app_r _ _ [_; _; _; _]).
Qed.

Lemma parseKbnc_numbers (e : WorktodoEntry) (p : list string) :
  ok (parseKbnc e p) = true ->
  1 <= k (ent (parseKbnc e p)) < 2 ^ 32 /\
  2 <= b (ent (parseKbnc e p)) < 2 ^ 32 /\
  1 <= exponent (ent (parseKbnc e p)) < 2 ^ 32 /\
  out (parseKbnc e p) = [].
Proof.
  unfold parseKbnc.
  repeat case_match; simpl; try discriminate; intros _.
  match goal with
  | H : (_ || _ || _) = false |- _ =>
      simpl in H; apply orb_false_elim in H as [H Hn];
      apply orb_false_elim in H as [Hk Hb]
  end.
  apply Z.eqb_neq in Hk, Hn. apply Z.ltb_ge in Hb. simpl in *.
  repeat match goal with
  | |- context [Conv.to_u32 ?a] =>
      lazymatch goal with
      | _ : 0 <= Conv.to_u32 a < _ |- _ => fail
      | _ => pose proof (ConvFacts.to_u32_range a)
      end
  end.
  repeat split; try reflexivity; lia.
Qed.

Lemma parseExponent_frame (e : WorktodoEntry) (p : list string) :
  same_head e (ent (parseExponent e p)) /\
  knownFactors (ent (parseExponent e p)) = knownFactors e /\
  options (ent (parseExponent e p)) = options e /\
  k (ent (parseExponent e p)) = k e /\
  b (ent (parseExponent e p)) = b e /\
  c (ent (parseExponent e p)) = c e /\
  rest (parseExponent e p) `suffix_of` p.
Proof.
  unfold parseExponent, same_head.
  repeat case_match; simpl; repeat split; try reflexivity;
    by apply (suffix_app_r _ _ [_]).
Qed.

Lemma parseExponent_numbers (e : WorktodoEntry) (p : list string) :
  ok (parseExponent e p) = true ->
  1 <= exponent (ent (parseExponent e p)) < 2 ^ 32 /\
  out (parseExponent e p) = [].
Proof.
  unfold parseExponent.
  repeat case_match; simpl; try discriminate; intros _.
  match goal with H : (_ =? 0) = false |- _ => simpl in H; apply Z.eqb_neq in H end.
  match goal with
  | |- context [Conv.to_u32 ?a] => pose proof (ConvFacts.to_u32_range a)
  end.
  split; [lia | reflexivity].
Qed.

Lemma parseExponentOrKbnc_frame (e : WorktodoEntry) (p : list string) (r : run) :
  parseExponentOrKbnc e p = Some r ->
  same_head e (ent r) /\
  knownFactors (ent r) = knownFactors e /\
  options (ent r) = options e /\
  rest r `suffix_of` p /\
  (ok r = true -> 1 <= exponent (ent r) < 2 ^ 32).
Proof.
  unfold parseExponentOrKbnc.
  destruct p as [|p0 tl]; [discriminate|].
  destruct (Str.eqb p0 "1").
  - destruct (ok (parseKbnc e (p0 :: tl))) eqn:Hok; intros [= <-].
    + destruct (parseKbnc_frame e (p0 :: tl)) as (Hh & Hkf & Ho & Hs).
      destruct (parseKbnc_numbers e (p0 :: tl) Hok) as (_ & _ & Hn & _).
      auto.
    + destruct (parseKbnc_frame e (p0 :: tl)) as (Hh & Hkf & Ho & Hs).
      set (r := parseKbnc e (p0 :: tl)) in *.
      destruct (parseExponent_frame (ent r) (rest r))
        as (Hh' & Hkf' & Ho' & _ & _ & _ & Hs').
      destruct Hh as (? & ? & ?), Hh' as (? & ? & ?).
      unfold same_head. simpl.
      repeat split; try congruence; try (etrans; eassumption);
        match goal with
        | Hx : ok (parseExponent _ _) = true |- _ =>
            apply parseExponent_numbers in Hx; apply Hx
        end.
  - intros Heq.
    assert (r = parseExponent e (p0 :: tl)) as -> by congruence. clear Heq.
    destruct (parseExponent_frame e (p0 :: tl)) as (Hh & Hkf & Ho & _ & _ & _ & Hs).
    split; [exact Hh|]. split; [exact Hkf|]. split; [exact Ho|].
    split; [exact Hs|].
    intros Hx. apply (parseExponent_numbers e (p0 :: tl)) in Hx. apply Hx.
Qed.

Lemma parseMandatorySomething_frame (e : WorktodoEntry) (p : list string) :
  ent (parseMandatorySomething e p) = e /\
  out (parseMandatorySomething e p) = [] /\
  rest (parseMandatorySomething e p) `suffix_of` p.
Proof.
  destruct p; simpl; repeat split; try reflexivity.
  by apply (suffix_app_r _ _ [_]).
Qed.

Lemma parsePartsFactors_frame (e : WorktodoEntry) (p : list string) :
  same_head e (ent (parsePartsFactors e p)) /\
  same_number e (ent (parsePartsFactors e p)) /\
  options (ent (parsePartsFactors e p)) = options e /\
  out (parsePartsFactors e p) = [] /\
  (ok (parsePartsFactors e p) = true <-> p <> []) /\
  (knownFactors (ent (parsePartsFactors e p)) = knownFactors e \/
   (p <> [] /\
    knownFactors (ent (parsePartsFactors e p)) = parseFactors (List.last p EmptyString))).
Proof.
  unfold parsePartsFactors, same_head, same_number.
  destruct p as [|p0 tl]; simpl.
  - repeat split; try reflexivity; try discriminate; try congruence. now left.
  - destruct (parseFactors _) eqn:E; simpl;
      repeat split; try reflexivity; try discriminate; auto.
Qed.

(** The optional factors of a factoring line: as above, and never a
    failure. *)
Lemma parseMaybeFactors_frame (e : WorktodoEntry) (p : list string) :
  same_head e (ent (parseMaybeFactors e p)) /\
  same_number e (ent (parseMaybeFactors e p)) /\
  options (ent (parseMaybeFactors e p)) = options e /\
  out (parseMaybeFactors e p) = [] /\
  ok (parseMaybeFactors e p) = true /\
  (knownFactors (ent (parseMaybeFactors e p)) = knownFactors e \/
   (p <> [] /\
    knownFactors (ent (parseMaybeFactors e p)) = parseFactors (List.last p EmptyString))).
Proof.
  destruct p as [|p0 tl].
  - unfold parseMaybeFactors, same_head, same_number. simpl.
    repeat split; try reflexivity. now left.
  - change (parseMaybeFactors e (p0 :: tl)) with (parsePartsFactors e (p0 :: tl)).
    destruct (parsePartsFactors_frame e (p0 :: tl)) as (Hh & Hn & Ho & Hout & Hok & Hkf).
    repeat split; try apply Hh; try apply Hn; try assumption.
    apply Hok. discriminate.
Qed.

Lemma last_suffix (rest parts : list string) (d : string) :
  rest `suffix_of` parts -> rest <> [] -> List.last rest d = List.last parts d.
Proof.
  intros [pre ->] Hne. induction pre as [|x pre IH]; [reflexivity|].
  simpl. destruct (pre ++ rest) eqn:E; [|exact IH].
  apply app_eq_nil in E as [_ ?]. contradiction.
Qed.

Lemma dropPlaceholder_suffix (parts : list string) :
  dropPlaceholder parts `suffix_of` parts.
Proof.
  unfold dropPlaceholder. repeat case_match; try reflexivity.
  by apply (suffix_app_r _ _ [_]).
Qed.

Lemma takeAid_suffix (isFactoring : bool) (parts : list string) :
  (takeAid isFactoring parts).2 `suffix_of` parts.
Proof.
  unfold takeAid. repeat case_match; simpl; try reflexivity.
  by apply (suffix_app_r _ _ [_]).
Qed.

Section DecoderFacts.

Variable validateFactors : Z -> list string -> bool.
Variable stod_u64 : string -> option Z.

Lemma parseFactoringOpts_frame (e : WorktodoEntry) (p : list string) :
  same_head e (ent (parseFactoringOpts stod_u64 e p)) /\
  same_number e (ent (parseFactoringOpts stod_u64 e p)) /\
  knownFactors (ent (parseFactoringOpts stod_u64 e p)) = knownFactors e /\
  rest (parseFactoringOpts stod_u64 e p) `suffix_of` p.
Proof.
  unfold parseFactoringOpts, same_head, same_number.
  repeat case_match; simpl; repeat split; try reflexivity;
    by apply (suffix_app_r _ _ [_; _]).
Qed.

Lemma prpFactors_frame (e : WorktodoEntry) (p : list string) :
  same_head e (ent (prpFactors validateFactors e p)) /\
  same_number e (ent (prpFactors validateFactors e p)) /\
  (options (ent (prpFactors validateFactors e p)) = options e \/
   options (ent (prpFactors validateFactors e p)) = primality 5) /\
  (knownFactors (ent (prpFactors validateFactors e p)) = knownFactors e \/
   (p <> [] /\
    knownFactors (ent (prpFactors validateFactors e p))
      = parseFactors (List.last p EmptyString))).
Proof.
  unfold prpFactors.
  destruct (parsePartsFactors_frame e p) as (Hh & Hn & Ho & _ & Hok & Hkf).
  destruct Hh as (Hh1 & Hh2 & Hh3). destruct Hn as (Hn1 & Hn2 & Hn3 & Hn4).
  unfold same_head, same_number.
  repeat case_match; simpl; repeat split; auto.
Qed.

Lemma prpBaseResidue_loaded (e0 : WorktodoEntry) (p : list string)
    (e : WorktodoEntry) (pr : list msg) :
  prpBaseResidue e0 p = (Loaded e, pr) ->
  e = e0 /\
  Forall (fun m => exists rt,
            m = residue_warning rt (residueType_of e0) /\ rt <> residueType_of e0) pr.
Proof.
  unfold prpBaseResidue.
  repeat case_match; intros [= <- <-]; split; try reflexivity;
    repeat constructor.
  eexists; split; [reflexivity|].
  match goal with H : negb (_ =? _) = true |- _ =>
    apply negb_true_iff, Z.eqb_neq in H; exact H end.
Qed.

End DecoderFacts.

(** * The four kinds of line *)

Section Branches.

Variable validateFactors : Z -> list string -> bool.
Variable stod_u64 : string -> option Z.

(** What an accepted factoring line (PFactor or Pminus1) carries. *)
Lemma parsePF_loaded (e0 : WorktodoEntry) (parts : list string)
    (e : WorktodoEntry) (pr : list msg) :
  parsePF stod_u64 e0 parts = (Loaded e, pr) ->
  same_head e0 e /\ isMersenne e = true /\ 1 <= exponent e /\
  (knownFactors e = knownFactors e0 \/
   knownFactors e = parseFactors (List.last parts EmptyString)).
Proof.
  unfold parsePF. intros H.
  destruct (parseExponentOrKbnc e0 parts) as [r1|] eqn:E1; [|discriminate].
  peel H.
  destruct (parseExponentOrKbnc_frame _ _ _ E1) as (Hh1 & Hkf1 & _ & Hs1 & Hn1).
  specialize (Hn1 Hok).
  destruct (parseMandatorySomething_frame (ent r1) (rest r1)) as (He2 & _ & Hs2).
  set (r2 := parseMandatorySomething (ent r1) (rest r1)) in *.
  destruct (parseMandatorySomething_frame (ent r2) (rest r2)) as (He3 & _ & Hs3).
  set (r3 := parseMandatorySomething (ent r2) (rest r2)) in *.
  destruct (parseFactoringOpts_frame stod_u64 (ent r3) (rest r3))
    as (Hh4 & Hn4 & Hkf4 & Hs4).
  set (r4 := parseFactoringOpts stod_u64 (ent r3) (rest r3)) in *.
  destruct (parseMaybeFactors_frame (ent r4) (rest r4))
    as (Hh5 & Hn5 & _ & _ & _ & Hkf5).
  set (r5 := parseMaybeFactors (ent r4) (rest r4)) in *.
  injection H as <- _.
  rewrite He3, He2 in Hh4, Hn4, Hkf4.
  pose proof (same_head_trans _ _ _ Hh1 (same_head_trans _ _ _ Hh4 Hh5)) as Hh.
  pose proof (same_number_trans _ _ _ Hn4 Hn5) as (Hk & Hb & Hc & Hx).
  split; [exact Hh|]. split; [|split].
  - unfold isMersenne in *. rewrite Hk, Hb, Hc. exact Hcond.
  - rewrite Hx. lia.
  - destruct Hkf5 as [Hkf5|[Hne Hkf5]]; [left; congruence|right].
    rewrite Hkf5. f_equal. apply last_suffix; [|exact Hne].
    etrans; [exact Hs4|]. etrans; [exact Hs3|]. etrans; [exact Hs2|]. exact Hs1.
Qed.

Lemma parsePM1_loaded (e0 : WorktodoEntry) (parts : list string)
    (e : WorktodoEntry) (pr : list msg) :
  parsePM1 stod_u64 e0 parts = (Loaded e, pr) ->
  same_head e0 e /\ isMersenne e = true /\ 1 <= exponent e /\
  (knownFactors e = knownFactors e0 \/
   knownFactors e = parseFactors (List.last parts EmptyString)).
Proof.
  unfold parsePM1. intros H. peel H.
  destruct (parseKbnc_frame e0 parts) as (Hh1 & Hkf1 & _ & Hs1).
  destruct (parseKbnc_numbers e0 parts Hok) as (_ & _ & Hn1 & _).
  set (r1 := parseKbnc e0 parts) in *.
  destruct (parseFactoringOpts_frame stod_u64 (ent r1) (rest r1))
    as (Hh2 & Hn2 & Hkf2 & Hs2).
  set (r2 := parseFactoringOpts stod_u64 (ent r1) (rest r1)) in *.
  destruct (parseMandatorySomething_frame (ent r2) (rest r2)) as (He3 & _ & Hs3).
  set (r3 := parseMandatorySomething (ent r2) (rest r2)) in *.
  destruct (parseMaybeFactors_frame (ent r3) (rest r3))
    as (Hh4 & Hn4 & _ & _ & _ & Hkf4).
  set (r4 := parseMaybeFactors (ent r3) (rest r3)) in *.
  injection H as <- _.
  rewrite He3 in Hh4, Hn4, Hkf4.
  pose proof (same_head_trans _ _ _ Hh1 (same_head_trans _ _ _ Hh2 Hh4)) as Hh.
  pose proof (same_number_trans _ _ _ Hn2 Hn4) as (Hk & Hb & Hc & Hx).
  split; [exact Hh|]. split; [|split].
  - unfold isMersenne in *. rewrite Hk, Hb, Hc. exact Hcond.
  - rewrite Hx. lia.
  - destruct Hkf4 as [Hkf4|[Hne Hkf4]]; [left; congruence|right].
    rewrite Hkf4. f_equal. apply last_suffix; [|exact Hne].
    etrans; [exact Hs3|]. etrans; [exact Hs2|]. exact Hs1.
Qed.

(** An accepted Test or DoubleCheck line sets the exponent and nothing
    else. *)
Lemma parseLL_loaded (e0 : WorktodoEntry) (parts : list string)
    (e : WorktodoEntry) (pr : list msg) :
  parseLL e0 parts = (Loaded e, pr) ->
  same_head e0 e /\ 1 <= exponent e /\
  k e = k e0 /\ b e = b e0 /\ c e = c e0 /\
  knownFactors e = knownFactors e0 /\ options e = options e0 /\ pr = [].
Proof.
  unfold parseLL. intros H. peel H.
  destruct (parseExponent_frame e0 parts) as (Hh1 & Hkf1 & Ho1 & Hk & Hb & Hc & _).
  destruct (parseExponent_numbers e0 parts Hok) as (Hn1 & Hout1).
  set (r1 := parseExponent e0 parts) in *.
  destruct (parseMandatorySomething_frame (ent r1) (rest r1)) as (He2 & Hout2 & _).
  set (r2 := parseMandatorySomething (ent r1) (rest r1)) in *.
  destruct (parseMandatorySomething_frame (ent r2) (rest r2)) as (He3 & Hout3 & _).
  set (r3 := parseMandatorySomething (ent r2) (rest r2)) in *.
  injection H as <- <-. subst pr pr0 pr1.
  rewrite He3, He2, Hout1, Hout2, Hout3.
  repeat split; try apply Hh1; try assumption; lia.
Qed.

(** An accepted PRP or PRPDC line. *)
Lemma parsePRP_loaded (e0 : WorktodoEntry) (parts : list string)
    (e : WorktodoEntry) (pr : list msg) :
  parsePRP validateFactors e0 parts = (Loaded e, pr) ->
  same_head e0 e /\
  1 <= k e /\ 2 <= b e /\ 1 <= exponent e /\
  (isMersenne e || isWagstaff e = true) /\
  (options e = options e0 \/ options e = primality 5) /\
  (knownFactors e = knownFactors e0 \/
   knownFactors e = parseFactors (List.last parts EmptyString)) /\
  Forall (fun m => exists rt,
            m = residue_warning rt (residueType_of e) /\ rt <> residueType_of e) pr.
Proof.
  unfold parsePRP, prpTail. intros H. peel H.
  destruct (parseKbnc_frame e0 parts) as (Hh1 & Hkf1 & Ho1 & Hs1).
  destruct (parseKbnc_numbers e0 parts Hok) as (Hk1 & Hb1 & Hn1 & Hout1).
  set (r1 := parseKbnc e0 parts) in *.
  destruct (prpFactors_frame validateFactors (ent r1) (rest r1))
    as (Hh2 & (Hk & Hb & Hc & Hx) & Ho2 & Hkf2).
  assert (out (prpFactors validateFactors (ent r1) (rest r1)) = []) as Hout2.
  { revert Hok0. unfold prpFactors.
    destruct (parsePartsFactors_frame (ent r1) (rest r1)) as (_ & _ & _ & Hq & _).
    repeat case_match; simpl; try discriminate; auto. }
  set (r2 := prpFactors validateFactors (ent r1) (rest r1)) in *.
  apply prpBaseResidue_loaded in H as (-> & Hw).
  subst pr pr0. rewrite Hout1, Hout2. simpl.
  split; [exact (same_head_trans _ _ _ Hh1 Hh2)|].
  rewrite Hk, Hb, Hx.
  repeat split; try lia; try assumption.
  - destruct Ho2 as [Ho2|Ho2]; [left; congruence | right; exact Ho2].
  - destruct Hkf2 as [Hkf2|[Hne Hkf2]]; [left; congruence|right].
    rewrite Hkf2. f_equal. apply last_suffix; assumption.
Qed.

End Branches.

(** * The decoder of one line *)

Section LineFacts.

Variable validateFactors : Z -> list string -> bool.
Variable stod_u64 : string -> option Z.

(** Evaluate the keyword tests once the keyword is known. *)
Ltac keyword H :=
  repeat match type of H with
  | context [Str.eqb (String ?a ?s) ?t] =>
      let v := eval vm_compute in (Str.eqb (String a s) t) in
      change (Str.eqb (String a s) t) with v in H
  end;
  cbv beta iota zeta in H;
  repeat match type of H with
  | context [orb ?x ?y] =>
      first [ change (orb x y) with true in H | change (orb x y) with false in H ]
  | context [negb true] => change (negb true) with false in H
  | context [negb false] => change (negb false) with true in H
  end;
  cbv beta iota zeta in H.

(** Everything an accepted line tells about its entry. *)
Lemma decodeLine_loaded (line : string) (e : WorktodoEntry) (pr : list msg) :
  decodeLine validateFactors stod_u64 line = (Loaded e, pr) ->
  exists top0 top1 more,
    util_split line "="%char = top0 :: top1 :: more /\
    rawLine e = line /\
    aid e = (takeAid (Str.eqb top0 "PFactor" || Str.eqb top0 "Pminus1")
               (dropPlaceholder (splitRespectingQuotes top1 ","%char))).1 /\
    1 <= exponent e /\
    (knownFactors e = [] \/
     knownFactors e
       = parseFactors (List.last (splitRespectingQuotes top1 ","%char) EmptyString)) /\
    ((testType e = TESTTYPE_LL /\ (top0 = "Test" \/ top0 = "DoubleCheck") /\
      k e = 0 /\ b e = 0 /\ c e = 0 /\
      knownFactors e = [] /\ options e = primality 1 /\ pr = []) \/
     (testType e = TESTTYPE_PRP /\ (top0 = "PRP" \/ top0 = "PRPDC") /\
      1 <= k e /\ 2 <= b e /\
      (isMersenne e || isWagstaff e = true) /\
      (options e = primality 1 \/ options e = primality 5) /\
      Forall (fun m => exists rt,
                m = residue_warning rt (residueType_of e) /\
                rt <> residueType_of e) pr) \/
     (testType e = TESTTYPE_PM1 /\ (top0 = "PFactor" \/ top0 = "Pminus1") /\
      isMersenne e = true)).
Proof.
  unfold decodeLine. intros H.
  destruct (Str.empty line); [discriminate|].
  destruct (match Str.front line with
            | Some ch => Chars.eqb ch "#"%char
            | None => false
            end); [discriminate|].
  destruct (util_split line "="%char) as [|top0 [|top1 more]]; try discriminate.
  exists top0, top1, more. split; [reflexivity|].
  cbv zeta in H.
  set (tokens := splitRespectingQuotes top1 ","%char) in *.
  assert (forall parts kf,
            parts `suffix_of` tokens ->
            kf = [] \/ kf = parseFactors (List.last parts EmptyString) ->
            kf = [] \/ kf = parseFactors (List.last tokens EmptyString)) as Hlast.
  { intros parts kf Hs [Hkf|Hkf]; [left; exact Hkf|].
    destruct parts as [|p0 ps]; [left; exact Hkf|right].
    rewrite Hkf. f_equal. apply last_suffix; [exact Hs | discriminate]. }
  destruct (takeAid (Str.eqb top0 "PFactor" || Str.eqb top0 "Pminus1")
              (dropPlaceholder tokens)) as [a parts] eqn:Eaid.
  assert (parts `suffix_of` tokens) as Hparts.
  { change parts with (a, parts).2. rewrite <- Eaid.
    etrans; [apply takeAid_suffix | apply dropPlaceholder_suffix]. }
  simpl fst.
  destruct (Str.eqb top0 "PFactor") eqn:EPF.
  { apply StrFacts.eqb_spec in EPF. subst top0. keyword H.
    apply parsePF_loaded in H as ((Ht & Ha & Hr) & Hm & Hx & Hkf).
    simpl in Ht, Ha, Hr, Hkf.
    repeat split; try assumption.
    - apply (Hlast parts); assumption.
    - right; right. auto. }
  destruct (Str.eqb top0 "Pminus1") eqn:EPM.
  { apply StrFacts.eqb_spec in EPM. subst top0. keyword H.
    apply parsePM1_loaded in H as ((Ht & Ha & Hr) & Hm & Hx & Hkf).
    simpl in Ht, Ha, Hr, Hkf.
    repeat split; try assumption.
    - apply (Hlast parts); assumption.
    - right; right. auto. }
  assert (forall top0',
            (Str.eqb top0' "Test" || Str.eqb top0' "DoubleCheck" = true ->
             top0' = "Test" \/ top0' = "DoubleCheck") /\
            (Str.eqb top0' "PRP" || Str.eqb top0' "PRPDC" = true ->
             top0' = "PRP" \/ top0' = "PRPDC")) as Hkw.
  { intros t. split; intros Hor; apply orb_true_iff in Hor as [Hor|Hor];
      apply StrFacts.eqb_spec in Hor; auto. }
  destruct (Str.eqb top0 "Test" || Str.eqb top0 "DoubleCheck") eqn:ELL.
  { apply Hkw in ELL.
    cbv beta iota zeta in H. simpl orb in H. simpl negb in H.
    cbv beta iota zeta in H.
    apply parseLL_loaded in H
      as ((Ht & Ha & Hr) & Hx & Hk & Hb & Hc & Hkf & Ho & Hpr).
    simpl in *.
    repeat split; try assumption; auto.
    left. repeat split; assumption. }
  destruct (Str.eqb top0 "PRP" || Str.eqb top0 "PRPDC") eqn:EPRP.
  { apply Hkw in EPRP.
    cbv beta iota zeta in H. simpl orb in H. simpl negb in H.
    cbv beta iota zeta in H.
    apply parsePRP_loaded in H
      as ((Ht & Ha & Hr) & Hk & Hb & Hx & Hmw & Ho & Hkf & Hw).
    simpl in Ht, Ha, Hr, Ho, Hkf.
    repeat split; try assumption.
    - apply (Hlast parts); assumption.
    - right; left. repeat split; assumption. }
  simpl in H. discriminate.
Qed.

End LineFacts.

(** * Properties of the decoder *)

(** ** Factoring lines *)

(** A Pminus1 line with seven field tokens: the numbers, the bounds and
    the advisory token.  No token is left for the optional factors, which
    is no failure. *)
Lemma parsePM1_seven_tokens (stod_u64 : string -> option Z) (e0 : WorktodoEntry)
    (tk tb tn tc tB1 tB2 hff : string) (vk vb vn b1 b2 : Z) :
  Conv.stoul tk = Some vk -> Conv.to_u32 vk = 1 ->
  Conv.stoul tb = Some vb -> Conv.to_u32 vb = 2 ->
  Conv.stoul tn = Some vn -> Conv.to_u32 vn <> 0 ->
  Conv.stoi tc = Some (-1) ->
  Conv.stoull tB1 = Some b1 -> b1 <> 0 ->
  stod_u64 tB2 = Some b2 -> b1 <= b2 ->
  parsePM1 stod_u64 e0 [tk; tb; tn; tc; tB1; tB2; hff]
  = (Loaded (mkEntry (testType e0) (Conv.to_u32 vn) 1 2 (-1) (aid e0) (rawLine e0)
               (knownFactors e0) (factoring b1 b2)), []).
Proof.
  intros Hk Hk1 Hb Hb2 Hn Hn0 Hc HB1 HB10 HB2 Hle.
  unfold parsePM1, parseKbnc. rewrite Hk, Hb, Hn, Hc.
  cbn [k b exponent set_k set_b set_exponent set_c].
  rewrite Hk1, Hb2.
  apply Z.eqb_neq in Hn0. rewrite Hn0.
  change ((1 =? 0) || (2 <? 2) || false) with false. cbv iota.
  unfold guard at 1. cbn [ok ent rest out].
  unfold isMersenne. cbn [k b c]. change ((1 =? 1) && (2 =? 2) && (-1 =? -1)) with true.
  unfold require. unfold parseFactoringOpts. rewrite HB1, HB2.
  apply Z.eqb_neq in HB10. rewrite HB10.
  assert ((b2 <? b1) = false) as -> by (apply Z.ltb_ge; lia).
  cbn [orb]. unfold guard, guard_reason, parseMandatorySomething, parseMaybeFactors.
  cbn [ok ent rest out app]. destruct e0; reflexivity.
Qed.

(** C1: a Pminus1 line whose field tokens are exactly k,b,n,c,B1,B2 and one
    advisory token, with k,b,c those of a Mersenne number, an exponent that
    is not zero and bounds with 1 <= B1 <= B2, is accepted.  The entry has
    these numbers and bounds and the assignment ID of the line; the advisory
    token is dropped; there is no known factor, and nothing is printed. *)
Theorem pminus1_without_factors_accepted
    (validateFactors : Z -> list string -> bool) (stod_u64 : string -> option Z)
    (line payload a tk tb tn tc tB1 tB2 hff : string) (more : list string)
    (vk vb vn b1 b2 : Z) :
  scanned line = true ->
  util_split line "="%char = "Pminus1" :: payload :: more ->
  fieldTokens true payload = (a, [tk; tb; tn; tc; tB1; tB2; hff]) ->
  Conv.stoul tk = Some vk -> Conv.to_u32 vk = 1 ->
  Conv.stoul tb = Some vb -> Conv.to_u32 vb = 2 ->
  Conv.stoul tn = Some vn -> Conv.to_u32 vn <> 0 ->
  Conv.stoi tc = Some (-1) ->
  Conv.stoull tB1 = Some b1 -> b1 <> 0 ->
  stod_u64 tB2 = Some b2 -> b1 <= b2 ->
  decodeLine validateFactors stod_u64 line
  = (Loaded (mkEntry TESTTYPE_PM1 (Conv.to_u32 vn) 1 2 (-1) a line []
               (factoring b1 b2)), []).
Proof.
  intros Hsc Hsplit Hft Hk Hk1 Hb Hb2 Hn Hn0 Hc HB1 HB10 HB2 Hle.
  unfold scanned in Hsc. apply andb_true_iff in Hsc as [H1 H2].
  apply negb_true_iff in H1, H2.
  unfold decodeLine. rewrite H1, H2, Hsplit.
  change (Str.eqb "Pminus1" "PRP") with false.
  change (Str.eqb "Pminus1" "PRPDC") with false.
  change (Str.eqb "Pminus1" "Test") with false.
  change (Str.eqb "Pminus1" "DoubleCheck") with false.
  change (Str.eqb "Pminus1" "PFactor") with false.
  change (Str.eqb "Pminus1" "Pminus1") with true.
  cbn [orb negb]. cbv zeta.
  unfold fieldTokens in Hft. rewrite Hft.
  rewrite (parsePM1_seven_tokens stod_u64 _ tk tb tn tc tB1 tB2 hff vk vb vn b1 b2
             Hk Hk1 Hb Hb2 Hn Hn0 Hc HB1 HB10 HB2 Hle).
  reflexivity.
Qed.

Lemma pminus1_without_factors_accepted_witness :
  scanned line_pminus1 = true /\
  util_split line_pminus1 "="%char = ["Pminus1"; "1,2,1277,-1,1000,50000,70"] /\
  fieldTokens true "1,2,1277,-1,1000,50000,70"
    = (EmptyString, ["1"; "2"; "1277"; "-1"; "1000"; "50000"; "70"]) /\
  decodeLine acceptFactors stod_u64_plain line_pminus1
  = (Loaded (mkEntry TESTTYPE_PM1 1277 1 2 (-1) EmptyString line_pminus1 []
               (factoring 1000 50000)), []).
Proof.
  split; [reflexivity|]. split; [reflexivity|]. split; [reflexivity|].
  apply (pminus1_without_factors_accepted acceptFactors stod_u64_plain
           line_pminus1 "1,2,1277,-1,1000,50000,70" EmptyString
           "1" "2" "1277" "-1" "1000" "50000" "70" [] 1 2 1277 1000 50000);
    try reflexivity; try discriminate.
Defined.

(** The same line with a token after the advisory one that is no quoted
    list: the token is left alone and the line is accepted all the same. *)
Example pminus1_with_trailing_token :
  decodeLine acceptFactors stod_u64_plain (line_pminus1 +:+ ",x")
  = (Loaded (mkEntry TESTTYPE_PM1 1277 1 2 (-1) EmptyString
               (line_pminus1 +:+ ",x") [] (factoring 1000 50000)), []).
Proof. vm_compute. reflexivity. Qed.

(** C3 on the code: the PFactor line of the specification is skipped as
    not Mersenne, since the exponent path leaves k, b and c at zero; the
    bounds are never looked for. *)
Theorem pfactor_shorthand_skipped_as_not_mersenne
    (validateFactors : Z -> list string -> bool) (stod_u64 : string -> option Z) :
  decodeLine validateFactors stod_u64 line_pfactor
  = (Skipped, [cerr "Skip unsupported PFactor line (only Mersenne supported)"]).
Proof. vm_compute. reflexivity. Qed.

(** The exponent path of a PFactor line never yields an entry: an accepted
    PFactor line starts with the token 1 (after the assignment ID). *)
Lemma parsePF_shorthand_never_loaded (stod_u64 : string -> option Z)
    (e0 : WorktodoEntry) (p0 : string) (tl : list string)
    (e : WorktodoEntry) (pr : list msg) :
  k e0 = 0 ->
  parsePF stod_u64 e0 (p0 :: tl) = (Loaded e, pr) -> p0 = "1".
Proof.
  intros Hk0 H. unfold parsePF in H.
  destruct (parseExponentOrKbnc e0 (p0 :: tl)) as [r|] eqn:E; [|discriminate].
  peel H. clear H.
  unfold parseExponentOrKbnc in E.
  destruct (Str.eqb p0 "1") eqn:E1; [now apply StrFacts.eqb_spec|].
  assert (r = parseExponent e0 (p0 :: tl)) as -> by congruence.
  destruct (parseExponent_frame e0 (p0 :: tl)) as (_ & _ & _ & Hk & _).
  unfold isMersenne in Hcond. rewrite Hk, Hk0 in Hcond. discriminate.
Qed.

(** ** PRP lines *)

(** The reason "bad known factors" is never given: the helper fails on an
    empty vector only, and it is called on 1, 3 or 5 tokens. *)
Lemma prpFactors_never_bad (validateFactors : Z -> list string -> bool)
    (e : WorktodoEntry) (parts : list string) :
  ~ In (cerr "Bad PRP line (bad known factors part)")
      (out (prpFactors validateFactors e parts)).
Proof.
  unfold prpFactors.
  destruct (parsePartsFactors_frame e parts) as (_ & _ & _ & Hout & Hok & _).
  destruct parts as [|p0 tl]; [simpl; tauto|].
  assert (ok (parsePartsFactors e (p0 :: tl)) = true) as Hok'
    by (apply Hok; discriminate).
  rewrite Hok'. change (negb true) with false. cbv iota.
  destruct (_ || _); [|simpl; tauto].
  destruct (isMersenne _); [destruct (negb _)|];
    cbn [out]; rewrite ?Hout; simpl; intuition discriminate.
Qed.

(** On a Mersenne entry with 1, 3 or 5 tokens the predicate decides. *)
Lemma prpFactors_mersenne (validateFactors : Z -> list string -> bool)
    (e : WorktodoEntry) (parts : list string) :
  isMersenne e = true ->
  (length parts = 1 \/ length parts = 3 \/ length parts = 5)%nat ->
  prpFactors validateFactors e parts
  = if validateFactors (exponent e) (knownFactors (ent (parsePartsFactors e parts)))
    then Run true (set_options (ent (parsePartsFactors e parts)) (primality 5))
           (rest (parsePartsFactors e parts)) []
    else Run false (ent (parsePartsFactors e parts)) (rest (parsePartsFactors e parts))
           [cerr "Skip PRP line: invalid known factors for exponent"].
Proof.
  intros Hm Hlen. unfold prpFactors.
  assert (Nat.eqb (length parts) 1 || Nat.eqb (length parts) 3
          || Nat.eqb (length parts) 5 = true) as ->.
  { destruct Hlen as [->|[->| ->]]; reflexivity. }
  destruct (parsePartsFactors_frame e parts)
    as (_ & (Hk & Hb & Hc & Hx) & _ & Hout & Hok & _).
  assert (ok (parsePartsFactors e parts) = true) as ->.
  { apply Hok. intros ->. destruct Hlen as [?|[?|?]]; discriminate. }
  assert (isMersenne (ent (parsePartsFactors e parts)) = true) as ->.
  { unfold isMersenne in *. now rewrite Hk, Hb, Hc. }
  rewrite Hout, Hx. cbn [negb app].
  destruct (validateFactors _ _); reflexivity.
Qed.

(** C4 on the code: with one token after k,b,n,c that is no quoted list,
    the line is not skipped for its known factors.  The factors stay empty
    and the predicate decides: the line is accepted in cofactor mode, or
    skipped as "invalid known factors". *)
Theorem prp_unquoted_factors_not_rejected
    (validateFactors : Z -> list string -> bool) (stod_u64 : string -> option Z) :
  decodeLine validateFactors stod_u64 line_prp_unquoted
  = if validateFactors 89 []
    then (Loaded (mkEntry TESTTYPE_PRP 89 1 2 (-1) EmptyString
                    line_prp_unquoted [] (primality 5)), [])
    else (Skipped, [cerr "Skip PRP line: invalid known factors for exponent"]).
Proof.
  change (decodeLine validateFactors stod_u64 line_prp_unquoted)
    with (parsePRP validateFactors
            (mkEntry TESTTYPE_PRP 0 0 0 0 EmptyString line_prp_unquoted []
               (primality 1))
            ["1"; "2"; "89"; "-1"; "77"]).
  set (e1 := mkEntry TESTTYPE_PRP 89 1 2 (-1) EmptyString line_prp_unquoted []
               (primality 1)).
  unfold parsePRP.
  change (parseKbnc _ _) with (Run true e1 ["77"] []).
  unfold guard at 1. cbn [ok ent rest out].
  rewrite (prpFactors_mersenne validateFactors e1 ["77"]); [|reflexivity|now left].
  change (parsePartsFactors e1 ["77"]) with (Run true e1 ["77"] []).
  cbn [ok ent rest out]. change (exponent e1) with 89.
  change (knownFactors e1) with (@nil string).
  destruct (validateFactors 89 []); reflexivity.
Qed.





(** The line of the specification: a Mersenne entry with exponent 89, the
    factor 3 and residue type 5 when the predicate accepts them. *)
Example prp_cofactor_line
    (validateFactors : Z -> list string -> bool) (stod_u64 : string -> option Z) :
  decodeLine validateFactors stod_u64 line_prp_cofactor
  = if validateFactors 89 ["3"]
    then (Loaded (mkEntry TESTTYPE_PRP 89 1 2 (-1) EmptyString
                    line_prp_cofactor ["3"] (primality 5)), [])
    else (Skipped, [cerr "Skip PRP line: invalid known factors for exponent"]).
Proof.
  change (decodeLine validateFactors stod_u64 line_prp_cofactor)
    with (parsePRP validateFactors
            (mkEntry TESTTYPE_PRP 0 0 0 0 EmptyString line_prp_cofactor []
               (primality 1))
            ["1"; "2"; "89"; "-1"; Str.quoted "3"]).
  set (e1 := mkEntry TESTTYPE_PRP 89 1 2 (-1) EmptyString line_prp_cofactor []
               (primality 1)).
  unfold parsePRP.
  change (parseKbnc _ _) with (Run true e1 [Str.quoted "3"] []).
  unfold guard at 1. cbn [ok ent rest out].
  rewrite (prpFactors_mersenne validateFactors e1 [Str.quoted "3"]);
    [|reflexivity|now left].
  change (parsePartsFactors e1 [Str.quoted "3"])
    with (Run true (set_knownFactors e1 ["3"]) [] []).
  cbn [ok ent rest out]. change (exponent e1) with 89.
  change (knownFactors (set_knownFactors e1 ["3"])) with ["3"].
  destruct (validateFactors 89 ["3"]); reflexivity.
Qed.



(** The whole line in cofactor mode: the factor is validated, the residue
    type becomes 5, the token 1 gives the warning and the entry keeps 5. *)
Example residue_mismatch_cofactor_line (stod_u64 : string -> option Z) :
  decodeLine acceptFactors stod_u64 line_prp_cofactor_residue
  = (Loaded (mkEntry TESTTYPE_PRP 89 1 2 (-1) EmptyString line_prp_cofactor_residue
               ["3"] (primality 5)),
     [residue_warning 1 5]).
Proof. vm_compute. reflexivity. Qed.

Example residue_mismatch_line
    (validateFactors : Z -> list string -> bool) (stod_u64 : string -> option Z) :
  decodeLine validateFactors stod_u64 line_prp_residue
  = (Loaded (mkEntry TESTTYPE_PRP 89 1 2 (-1) EmptyString line_prp_residue []
               (primality 1)),
     [residue_warning 5 1]).
Proof. vm_compute. reflexivity. Qed.

(** An accepted PRP line prints nothing but such warnings, and its residue
    type is 1 or 5, whatever the token says. *)
Lemma accepted_prp_residue (validateFactors : Z -> list string -> bool)
    (stod_u64 : string -> option Z) (line : string)
    (e : WorktodoEntry) (pr : list msg) :
  decodeLine validateFactors stod_u64 line = (Loaded e, pr) ->
  testType e = TESTTYPE_PRP ->
  (residueType_of e = 1 \/ residueType_of e = 5) /\
  Forall (fun m => exists rt,
            m = residue_warning rt (residueType_of e) /\ rt <> residueType_of e) pr.
Proof.
  intros H Hty.
  apply decodeLine_loaded in H
    as (top0 & top1 & more & _ & _ & _ & _ & _ & Hkind).
  destruct Hkind as [(Hll & _)|[(_ & _ & _ & _ & _ & Ho & Hw)|(Hpm & _)]];
    try congruence.
  split; [|exact Hw].
  unfold residueType_of. destruct Ho as [-> | ->]; auto.
Qed.

(** ** The assignment ID *)

Lemma isxdigit_spec (ch : ascii) : Chars.isxdigit ch = true <-> hexDigit ch.
Proof.
  unfold hexDigit.
  destruct ch as [[] [] [] [] [] [] [] []]; vm_compute; split;
    try discriminate; intros H;
    first [ reflexivity
          | repeat (destruct H as [H|H]; [discriminate H|]); contradiction
          | repeat (first [left; reflexivity | right]) ].
Qed.

Lemma all_spec (p : ascii -> bool) (s : string) :
  Str.all p s = true <-> Forall (fun ch => p ch = true) (list_ascii_of_string s).
Proof.
  induction s as [|ch s IH]; simpl.
  - split; [constructor | reflexivity].
  - rewrite andb_true_iff, IH. split.
    + intros [? ?]. constructor; assumption.
    + intros H. inversion H; subst. split; assumption.
Qed.

Lemma isHex_spec (s : string) : isHex s = true <-> hex32 s.
Proof.
  unfold isHex, hex32, Str.size.
  destruct (Nat.eqb (String.length s) 32) eqn:E; simpl.
  - apply Nat.eqb_eq in E. rewrite all_spec. split.
    + intros H. split; [exact E|].
      eapply Forall_impl; [exact H|]. intros ch. apply isxdigit_spec.
    + intros [_ H]. eapply Forall_impl; [exact H|]. intros ch. apply isxdigit_spec.
  - apply Nat.eqb_neq in E. split; [discriminate|]. intros [? _]. contradiction.
Qed.

(** The test of line 207, in words. *)
Lemma aid_test_spec (isFactoring : bool) (t : string) :
  isHex t || isFactoring && Str.eqb t "AID" = true
  <-> hex32 t \/ (isFactoring = true /\ t = "AID").
Proof.
  rewrite orb_true_iff, andb_true_iff, isHex_spec, StrFacts.eqb_spec. tauto.
Qed.


(** A token that is not taken stays the first token of the fields. *)
Lemma aid_not_consumed (isFactoring : bool) (t : string) (tl : list string) :
  ~ (hex32 t \/ (isFactoring = true /\ t = "AID")) ->
  takeAid isFactoring (t :: tl) = (EmptyString, t :: tl).
Proof.
  rewrite <- aid_test_spec. intros H. unfold takeAid.
  destruct (isHex t || isFactoring && Str.eqb t "AID"); [|reflexivity].
  now destruct H.
Qed.

(** In particular a token of 31 or 33 characters is never taken. *)
Lemma aid_wrong_length (isFactoring : bool) (t : string) (tl : list string) :
  String.length t = 31%nat \/ String.length t = 33%nat ->
  takeAid isFactoring (t :: tl) = (EmptyString, t :: tl).
Proof.
  intros Hlen. apply aid_not_consumed.
  intros [[H32 _]|[_ ->]]; [lia | simpl in Hlen; lia].
Qed.

Example aid_31_digits :
  decodeLine acceptFactors stod_u64_plain
    "PRP=0123456789abcdef0123456789ABCDE,1,2,89,-1,75,0,3,1"
  = (Skipped, [cerr "Skip: invalid k,b,n,c values"]).
Proof. vm_compute. reflexivity. Qed.

(** The assignment ID of an entry is the token taken, or empty. *)
Lemma accepted_aid (validateFactors : Z -> list string -> bool)
    (stod_u64 : string -> option Z) (line : string)
    (e : WorktodoEntry) (pr : list msg) :
  decodeLine validateFactors stod_u64 line = (Loaded e, pr) ->
  aid e = EmptyString \/ hex32 (aid e) \/
  (testType e = TESTTYPE_PM1 /\ aid e = "AID").
Proof.
  intros H.
  apply decodeLine_loaded in H
    as (top0 & top1 & more & _ & _ & Ha & _ & _ & Hkind).
  rewrite Ha. clear Ha.
  set (isF := Str.eqb top0 "PFactor" || Str.eqb top0 "Pminus1") in *.
  destruct (dropPlaceholder (splitRespectingQuotes top1 ","%char)) as [|t tl];
    [left; reflexivity|].
  destruct (takeAid isF (t :: tl)) as [a ps] eqn:E.
  unfold takeAid in E.
  destruct (isHex t || isF && Str.eqb t "AID") eqn:Ec; injection E as <- <-;
    [|left; reflexivity].
  right. simpl. apply orb_true_iff in Ec as [Ec|Ec].
  - left. now apply isHex_spec.
  - right. apply andb_true_iff in Ec as [EF Ec].
    apply StrFacts.eqb_spec in Ec. split; [|exact Ec].
    destruct Hkind as [(_ & Hkw & _)|[(_ & Hkw & _)|(Hty & _)]];
      [| |exact Hty];
      destruct Hkw as [-> | ->]; discriminate EF.
Qed.

(** ** Entries returned by [parse] *)

Section ParseFacts.

Variable validateFactors : Z -> list string -> bool.
Variable stod_u64 : string -> option Z.

(** The entry [parse] returns is the entry of one of the lines. *)
Lemma parseLines_loaded (filename_ : string) (lines : list string)
    (e : WorktodoEntry) (pr : list msg) :
  parseLines validateFactors stod_u64 filename_ lines = (Loaded e, pr) ->
  exists line pr',
    In line lines /\ decodeLine validateFactors stod_u64 line = (Loaded e, pr').
Proof.
  revert pr. induction lines as [|line lines IH]; intros pr; simpl; [discriminate|].
  destruct (decodeLine validateFactors stod_u64 line) as [o l] eqn:E.
  destruct o as [e'| |].
  - intros [= -> <-]. exists line, l. auto.
  - destruct (parseLines validateFactors stod_u64 filename_ lines) as [o' l'].
    intros [= -> <-].
    destruct (IH l' eq_refl) as (line' & pr' & Hin & Hd).
    exists line', pr'. auto.
  - discriminate.
Qed.

Lemma parse_loaded (filename_ : string) (fs : gmap string string)
    (e : WorktodoEntry) (pr : list msg) :
  parse validateFactors stod_u64 filename_ fs = (Loaded e, pr) ->
  exists content line pr',
    fs !! filename_ = Some content /\ In line (getlines content) /\
    decodeLine validateFactors stod_u64 line = (Loaded e, pr').
Proof.
  unfold parse. destruct (fs !! filename_) as [content|]; [|discriminate].
  intros H. apply parseLines_loaded in H as (line & pr' & Hin & Hd).
  exists content, line, pr'. auto.
Qed.

End ParseFacts.

(** C2 on the code: the Test line of the specification is accepted with
    k = 0, b = 0 and c = 0, whatever the predicate and the conversion are,
    and [parse] returns that entry.  [parseExponent] sets the exponent and
    nothing else, so the entry keeps the zeros it was created with. *)
Theorem test_line_loaded_with_zero_kb
    (validateFactors : Z -> list string -> bool) (stod_u64 : string -> option Z) :
  decodeLine validateFactors stod_u64 "Test=1277,70,0"
  = (Loaded (mkEntry TESTTYPE_LL 1277 0 0 0 EmptyString "Test=1277,70,0" []
               (primality 1)), []) /\
  parse validateFactors stod_u64 queuePath {[ queuePath := "Test=1277,70,0" ]}
  = (Loaded (mkEntry TESTTYPE_LL 1277 0 0 0 EmptyString "Test=1277,70,0" []
               (primality 1)), []).
Proof. split; vm_compute; reflexivity. Qed.

(** The numbers of the entries [parse] returns, by kind: the exponent is
    never zero; k and b are read and checked on PRP, PRPDC, PFactor and
    Pminus1 lines, and are never assigned on Test and DoubleCheck lines. *)
Lemma parse_entry_numbers (validateFactors : Z -> list string -> bool)
    (stod_u64 : string -> option Z) (filename_ : string)
    (fs : gmap string string) (e : WorktodoEntry) (pr : list msg) :
  parse validateFactors stod_u64 filename_ fs = (Loaded e, pr) ->
  1 <= exponent e /\
  ((testType e = TESTTYPE_LL /\ k e = 0 /\ b e = 0 /\ c e = 0) \/
   (testType e <> TESTTYPE_LL /\ 1 <= k e /\ 2 <= b e)).
Proof.
  intros H. apply parse_loaded in H as (content & line & pr' & _ & _ & H).
  apply decodeLine_loaded in H
    as (top0 & top1 & more & _ & _ & _ & Hx & _ & Hkind).
  split; [exact Hx|].
  destruct Hkind
    as [(Hty & _ & Hk & Hb & Hc & _)|[(Hty & _ & Hk & Hb & _)|(Hty & _ & Hm)]].
  - left. auto.
  - right. rewrite Hty. repeat split; [discriminate | lia | lia].
  - right. rewrite Hty. unfold isMersenne in Hm.
    apply andb_true_iff in Hm as [Hm _]. apply andb_true_iff in Hm as [Hk Hb].
    apply Z.eqb_eq in Hk, Hb. repeat split; [discriminate | lia | lia].
Qed.

(** ** Known factors *)

Lemma pop_back_push (s : string) (ch : ascii) :
  Str.pop_back (s +:+ String ch EmptyString) = s.
Proof.
  induction s as [|x s IH]; [reflexivity|].
  rewrite StrFacts.app_cons.
  change (Str.pop_back (String x (s +:+ String ch EmptyString)))
    with (match s +:+ String ch EmptyString with
          | EmptyString => EmptyString
          | String _ _ => String x (Str.pop_back (s +:+ String ch EmptyString))
          end).
  rewrite IH. destruct s; reflexivity.
Qed.

(** The factors of a quoted token are the tokens between its commas, as
    the tokenizer gives them. *)
Lemma parseFactors_quoted (content : string) :
  parseFactors (Str.quoted content) = util_split content ","%char.
Proof.
  unfold parseFactors.
  assert (Str.back (Str.quoted content) = Some Chars.dquote) as Hback.
  { unfold Str.quoted.
    change (String Chars.dquote (content +:+ String Chars.dquote EmptyString))
      with (String Chars.dquote content +:+ String Chars.dquote EmptyString).
    apply StrFacts.back_app_cons. }
  assert (trim_back (Str.size (Str.quoted content)) (Str.quoted content)
          = Str.quoted content) as ->.
  { destruct (Str.size (Str.quoted content)); [reflexivity|].
    cbn [trim_back]. rewrite Hback. reflexivity. }
  rewrite Hback. unfold Str.quoted at 1. cbn [Str.front].
  assert ((2 <=? Str.size (Str.quoted content))%nat = true) as ->.
  { apply Nat.leb_le. unfold Str.quoted, Str.size.
    cbn [String.length]. rewrite StrFacts.length_app. simpl. lia. }
  change (Chars.eqb Chars.dquote Chars.dquote) with true. cbn [andb].
  unfold Str.quoted, Str.strip_ends. now rewrite pop_back_push.
Qed.

(** Under the tokenizer as it is modelled here, an empty element between
    two commas is a token. *)
Example split_with_gap : util_split "3,,5" ","%char = ["3"; EmptyString; "5"].
Proof. reflexivity. Qed.

(** * Further properties: the scan of the queue file *)

Section ScanFacts.

Variable validateFactors : Z -> list string -> bool.
Variable stod_u64 : string -> option Z.

Lemma parseLines_skip_prefix (filename_ : string) (pre rest : list string) :
  Forall (fun x => (decodeLine validateFactors stod_u64 x).1 = Skipped) pre ->
  parseLines validateFactors stod_u64 filename_ (pre ++ rest)
  = ((parseLines validateFactors stod_u64 filename_ rest).1,
     printedBy (decodeLine validateFactors stod_u64) pre
     ++ (parseLines validateFactors stod_u64 filename_ rest).2).
Proof.
  induction 1 as [|x pre Hx _ IH]; simpl.
  - now destruct (parseLines validateFactors stod_u64 filename_ rest).
  - destruct (decodeLine validateFactors stod_u64 x) as [o l] eqn:E.
    simpl in Hx. subst o. rewrite IH. unfold printedBy. simpl.
    rewrite E. simpl. now rewrite app_assoc.
Qed.

Lemma parseLines_stop (filename_ : string) (l : string) (post : list string)
    (e : WorktodoEntry) (pr : list msg) :
  decodeLine validateFactors stod_u64 l = (Loaded e, pr) ->
  parseLines validateFactors stod_u64 filename_ (l :: post) = (Loaded e, pr).
Proof. intros H. simpl. now rewrite H. Qed.

Lemma decodeLine_empty :
  decodeLine validateFactors stod_u64 EmptyString = (Skipped, []).
Proof. reflexivity. Qed.

Lemma blank_lines_skipped (pre : list string) :
  Forall (fun x => x = EmptyString) pre ->
  Forall (fun x => (decodeLine validateFactors stod_u64 x).1 = Skipped) pre /\
  printedBy (decodeLine validateFactors stod_u64) pre = [].
Proof.
  induction 1 as [|x pre -> _ [IH1 IH2]]; [split; [constructor|reflexivity]|].
  split; [constructor; [reflexivity|exact IH1]|].
  unfold printedBy in *. simpl. exact IH2.
Qed.

(** The outcome of the scan does not depend on a skipped line. *)
Lemma parseLines_without_skipped (filename_ : string) (pre post : list string)
    (l : string) :
  Forall (fun x => x = EmptyString) pre ->
  (decodeLine validateFactors stod_u64 l).1 = Skipped ->
  (parseLines validateFactors stod_u64 filename_ (pre ++ l :: post)).1
  = (parseLines validateFactors stod_u64 filename_ (pre ++ post)).1.
Proof.
  intros Hpre Hl.
  destruct (blank_lines_skipped pre Hpre) as [Hs _].
  rewrite !(parseLines_skip_prefix filename_ pre) by exact Hs. simpl.
  destruct (decodeLine validateFactors stod_u64 l) as [o pr]. simpl in Hl. subst o.
  now destruct (parseLines validateFactors stod_u64 filename_ post).
Qed.

End ScanFacts.

(** X1: [parse] returns the entry of the first line the decoder accepts:
    when the lines before it are all skipped, the entry of that line is
    returned, what was printed is what those lines and that line printed,
    and the lines after it play no part. *)
Theorem parse_first_accepted (validateFactors : Z -> list string -> bool)
    (stod_u64 : string -> option Z) (filename_ : string) (fs : gmap string string)
    (content : string) (pre post : list string) (l : string)
    (e : WorktodoEntry) (pr : list msg) :
  fs !! filename_ = Some content ->
  getlines content = pre ++ l :: post ->
  Forall (fun x => (decodeLine validateFactors stod_u64 x).1 = Skipped) pre ->
  decodeLine validateFactors stod_u64 l = (Loaded e, pr) ->
  parse validateFactors stod_u64 filename_ fs
  = (Loaded e, printedBy (decodeLine validateFactors stod_u64) pre ++ pr).
Proof.
  intros Hin Hlines Hpre Hl. unfold parse. rewrite Hin, Hlines.
  rewrite parseLines_skip_prefix by exact Hpre.
  now rewrite (parseLines_stop _ _ filename_ l post e pr Hl).
Qed.

(** Two skipped lines, the second with a reason, come before the job;
    the line after it would not have been decoded to an entry. *)
Lemma parse_first_accepted_witness :
  mixedQueue !! queuePath
    = Some (unlines ["# next"; "Foo=1"; "Test=1277,70,0"; "PFactor=AID"]) /\
  getlines (unlines ["# next"; "Foo=1"; "Test=1277,70,0"; "PFactor=AID"])
    = ["# next"; "Foo=1"] ++ "Test=1277,70,0" :: ["PFactor=AID"] /\
  decodeLine acceptFactors stod_u64_plain "# next" = (Skipped, []) /\
  decodeLine acceptFactors stod_u64_plain "Foo=1"
    = (Skipped, [cerr "Skip unsupported test type: Foo"]) /\
  decodeLine acceptFactors stod_u64_plain "PFactor=AID" = (Undefined, []) /\
  parse acceptFactors stod_u64_plain queuePath mixedQueue
    = (Loaded testEntry, [cerr "Skip unsupported test type: Foo"]).
Proof.
  assert (mixedQueue !! queuePath
          = Some (unlines ["# next"; "Foo=1"; "Test=1277,70,0"; "PFactor=AID"]))
    as Hin by reflexivity.
  assert (getlines (unlines ["# next"; "Foo=1"; "Test=1277,70,0"; "PFactor=AID"])
          = ["# next"; "Foo=1"] ++ "Test=1277,70,0" :: ["PFactor=AID"])
    as Hl by reflexivity.
  assert (decodeLine acceptFactors stod_u64_plain "Test=1277,70,0"
          = (Loaded testEntry, [])) as Hd by (vm_compute; reflexivity).
  assert (Forall (fun x => (decodeLine acceptFactors stod_u64_plain x).1 = Skipped)
            ["# next"; "Foo=1"]) as Hpre by (repeat constructor).
  split; [exact Hin|]. split; [exact Hl|].
  split; [vm_compute; reflexivity|]. split; [vm_compute; reflexivity|].
  split; [vm_compute; reflexivity|].
  exact (parse_first_accepted acceptFactors stod_u64_plain queuePath mixedQueue
           _ ["# next"; "Foo=1"] ["PFactor=AID"] "Test=1277,70,0" testEntry []
           Hin Hl Hpre Hd).
Defined.

(** X2: when the decoder skips every line of the file, [parse] returns no
    entry, and the last thing it prints, after the reasons of the lines, is
    that no valid entry was found. *)
Theorem parse_none_accepted (validateFactors : Z -> list string -> bool)
    (stod_u64 : string -> option Z) (filename_ : string) (fs : gmap string string)
    (content : string) :
  fs !! filename_ = Some content ->
  Forall (fun x => (decodeLine validateFactors stod_u64 x).1 = Skipped)
    (getlines content) ->
  parse validateFactors stod_u64 filename_ fs
  = (Skipped,
     printedBy (decodeLine validateFactors stod_u64) (getlines content)
     ++ [cerr ("No valid entry found in " +:+ Str.line filename_)]).
Proof.
  intros Hin Hall. unfold parse. rewrite Hin.
  rewrite <- (app_nil_r (getlines content)) at 1.
  now rewrite parseLines_skip_prefix by exact Hall.
Qed.

Lemma parse_none_accepted_witness :
  blankQueue !! queuePath = Some (unlines [EmptyString; EmptyString]) /\
  parse acceptFactors stod_u64_plain queuePath blankQueue
  = (Skipped, [cerr ("No valid entry found in " +:+ Str.line queuePath)]).
Proof.
  assert (blankQueue !! queuePath = Some (unlines [EmptyString; EmptyString]))
    as Hin by reflexivity.
  split; [exact Hin|].
  refine (parse_none_accepted acceptFactors stod_u64_plain queuePath blankQueue
            _ Hin _).
  repeat constructor.
Defined.

(** * Further properties: the queue rewrite *)

Lemma removeFirstProcessed_missing (filename_ : string) (fs : gmap string string) :
  fs !! filename_ = None ->
  removeFirstProcessed filename_ fs
  = (false, openAppend archivePath (openTrunc (filename_ +:+ ".tmp") fs)).
Proof. intros H. unfold removeFirstProcessed. now rewrite H. Qed.

Lemma open_streams_lookup (tmp : string) (fs : gmap string string) :
  tmp <> archivePath ->
  openAppend archivePath (openTrunc tmp fs) !! tmp = Some EmptyString /\
  openAppend archivePath (openTrunc tmp fs) !! archivePath
    = Some (default EmptyString (fs !! archivePath)) /\
  (forall p, p <> tmp -> p <> archivePath ->
             openAppend archivePath (openTrunc tmp fs) !! p = fs !! p).
Proof.
  intros Hta. unfold openAppend, openTrunc.
  rewrite (lookup_insert_ne fs tmp archivePath) by assumption.
  destruct (fs !! archivePath) eqn:E; simpl.
  - split; [apply lookup_insert_eq|]. split.
    + rewrite lookup_insert_ne by assumption. exact E.
    + intros p Hpt Hpa. apply lookup_insert_ne. congruence.
  - split; [rewrite lookup_insert_ne by congruence; apply lookup_insert_eq|].
    split; [apply lookup_insert_eq|].
    intros p Hpt Hpa. rewrite !lookup_insert_ne by congruence. reflexivity.
Qed.

(** X3: when the queue file does not exist the call returns false, yet it
    leaves an empty temporary file behind and creates the archive when
    there was none; an existing archive and every other file are as
    before. *)
Theorem remove_missing_queue (filename_ : string) (fs : gmap string string) :
  fs !! filename_ = None ->
  (removeFirstProcessed filename_ fs).1 = false /\
  (removeFirstProcessed filename_ fs).2 !! (filename_ +:+ ".tmp") = Some EmptyString /\
  (removeFirstProcessed filename_ fs).2 !! archivePath
    = Some (default EmptyString (fs !! archivePath)) /\
  (forall p, p <> filename_ +:+ ".tmp" -> p <> archivePath ->
             (removeFirstProcessed filename_ fs).2 !! p = fs !! p).
Proof.
  intros H. rewrite (removeFirstProcessed_missing _ _ H). simpl.
  split; [reflexivity|].
  apply open_streams_lookup, tmp_neq_archive.
Qed.

Lemma remove_missing_queue_witness :
  noQueue !! queuePath = None /\
  (removeFirstProcessed queuePath noQueue).1 = false /\
  (removeFirstProcessed queuePath noQueue).2 !! (queuePath +:+ ".tmp")
    = Some EmptyString /\
  (removeFirstProcessed queuePath noQueue).2 !! archivePath = Some EmptyString /\
  (removeFirstProcessed queuePath noQueue).2 !! queuePath = None.
Proof.
  assert (noQueue !! queuePath = None) as H by reflexivity.
  destruct (remove_missing_queue queuePath noQueue H) as (Hr & Ht & Ha & Ho).
  split; [exact H|]. split; [exact Hr|]. split; [exact Ht|]. split; [exact Ha|].
  rewrite Ho; [exact H | discriminate | discriminate].
Defined.

(** X4: whether or not the queue file exists, a call only appends to the
    archive (what it held stays at its start) and changes no file other
    than the queue file, its temporary file and the archive. *)
Theorem remove_appends_and_frames (filename_ : string) (fs : gmap string string) :
  filename_ <> archivePath ->
  (exists written,
     (removeFirstProcessed filename_ fs).2 !! archivePath
     = Some (default EmptyString (fs !! archivePath) +:+ written)) /\
  (forall p, p <> filename_ -> p <> filename_ +:+ ".tmp" -> p <> archivePath ->
             (removeFirstProcessed filename_ fs).2 !! p = fs !! p).
Proof.
  intros Hne. destruct (fs !! filename_) as [content|] eqn:Hin.
  - destruct (archiveLoop (getlines content) false EmptyString EmptyString)
      as [[skipped tempOut] saveOut] eqn:Hloop.
    destruct (removeFirstProcessed_run _ _ _ _ _ _ Hin Hloop)
      as (_ & _ & _ & Ha & Ho).
    split; [exists saveOut; exact (Ha Hne) | exact Ho].
  - rewrite (removeFirstProcessed_missing _ _ Hin). simpl.
    destruct (open_streams_lookup (filename_ +:+ ".tmp") fs
                (tmp_neq_archive filename_)) as (_ & Ha & Ho).
    split.
    + exists EmptyString. now rewrite StrFacts.app_nil_r.
    + intros p _ Hpt Hpa. apply Ho; assumption.
Qed.

Lemma remove_appends_and_frames_witness :
  queuePath <> archivePath /\
  (exists written,
     (removeFirstProcessed queuePath sampleQueue).2 !! archivePath
     = Some (default EmptyString (sampleQueue !! archivePath) +:+ written)) /\
  (removeFirstProcessed queuePath sampleQueue).2 !! "other.txt"
  = sampleQueue !! "other.txt".
Proof.
  assert (queuePath <> archivePath) as Hne by discriminate.
  destruct (remove_appends_and_frames queuePath sampleQueue Hne) as (Ha & Ho).
  split; [exact Hne|]. split; [exact Ha|].
  apply Ho; discriminate.
Defined.

Lemma nonEmptyLines_blank (lines : list string) :
  nonEmptyLines lines = [] -> Forall (fun l => l = EmptyString) lines.
Proof.
  induction lines as [|x xs IH]; [constructor|].
  unfold nonEmptyLines in *. simpl. destruct x; simpl; [|discriminate].
  intros H. constructor; [reflexivity | exact (IH H)].
Qed.

Lemma nonEmptyLines_exists (lines : list string) :
  nonEmptyLines lines <> [] -> Exists (fun l => l <> EmptyString) lines.
Proof.
  induction lines as [|x xs IH]; [intros H; now destruct H|].
  unfold nonEmptyLines in *. simpl. destruct x; simpl.
  - intros H. apply Exists_cons_tl, IH, H.
  - intros _. apply Exists_cons_hd. discriminate.
Qed.

Lemma lines_split_filters (pre post : list string) (l : string) :
  Forall (fun x => x = EmptyString) pre -> l <> EmptyString ->
  nonEmptyLines (pre ++ l :: post) = l :: nonEmptyLines post /\
  nonEmptyLines (pre ++ post) = nonEmptyLines post /\
  blankLines (pre ++ l :: post) = blankLines (pre ++ post).
Proof.
  intros Hpre Hl. apply StrFacts.empty_false in Hl.
  unfold nonEmptyLines, blankLines.
  induction Hpre as [|x pre -> _ (IH1 & IH2 & IH3)]; simpl.
  - rewrite Hl. simpl. auto.
  - rewrite IH3. auto.
Qed.

Lemma unlines_blank_filter (lines : list string) :
  Forall (fun l => l = EmptyString) lines -> blankLines lines = lines.
Proof.
  unfold blankLines. induction 1 as [|x xs -> _ IH]; simpl; [reflexivity|].
  now rewrite IH.
Qed.

Lemma unlines_app (xs ys : list string) :
  unlines (xs ++ ys) = unlines xs +:+ unlines ys.
Proof.
  induction xs as [|x xs IH]; [reflexivity|].
  simpl. now rewrite IH, StrFacts.app_assoc.
Qed.

(** The lines of a file hold no line feed, so they are read back as
    written. *)
Lemma getlines_sublist_roundtrip (content : string) (pre post : list string)
    (l : string) :
  getlines content = pre ++ l :: post ->
  getlines (unlines (pre ++ post)) = pre ++ post.
Proof.
  intros Hsplit. apply getlines_unlines.
  pose proof (getlines_no_newline content) as Hnn. rewrite Hsplit in Hnn.
  apply Forall_app in Hnn as [Hnpre Hnpost].
  apply Forall_app. split; [assumption|]. now inversion Hnpost.
Qed.

Lemma removeRepeatedly_drains (filename_ : string) (m : nat) :
  filename_ <> archivePath ->
  forall (fs : gmap string string) (content : string),
    fs !! filename_ = Some content ->
    length (nonEmptyLines (getlines content)) = m ->
    (removeRepeatedly (S m) filename_ fs).1 = replicate m true ++ [false] /\
    (removeRepeatedly (S m) filename_ fs).2 !! filename_
      = Some (unlines (blankLines (getlines content))) /\
    (removeRepeatedly (S m) filename_ fs).2 !! archivePath
      = Some (default EmptyString (fs !! archivePath)
              +:+ unlines (nonEmptyLines (getlines content))).
Proof.
  intros Hne. induction m as [|m IH]; intros fs content Hin Hlen.
  - apply length_zero_iff_nil in Hlen.
    pose proof (nonEmptyLines_blank _ Hlen) as Hblank.
    pose proof (archiveLoop_blank _ EmptyString EmptyString Hblank) as Hloop.
    rewrite (unlines_getlines_blank _ Hblank) in Hloop.
    destruct (removeFirstProcessed_run _ _ _ _ _ _ Hin Hloop)
      as (Hret & Hq & _ & Ha & _).
    simpl. destruct (removeFirstProcessed filename_ fs) as [b fs1].
    simpl in *. subst b. rewrite Hlen. simpl.
    rewrite (unlines_blank_filter _ Hblank), (unlines_getlines_blank _ Hblank).
    split; [reflexivity|]. split; [exact Hq|]. exact (Ha Hne).
  - assert (nonEmptyLines (getlines content) <> []) as Hnz
      by (intros E; rewrite E in Hlen; discriminate).
    destruct (first_nonempty _ (nonEmptyLines_exists _ Hnz))
      as (pre & l & post & Hsplit & Hpre & Hl).
    pose proof (archiveLoop_first pre post l EmptyString EmptyString Hpre Hl) as Hloop.
    rewrite <- Hsplit in Hloop.
    change (EmptyString +:+ unlines (pre ++ post)) with (unlines (pre ++ post)) in Hloop.
    change (EmptyString +:+ Str.line l) with (Str.line l) in Hloop.
    destruct (removeFirstProcessed_run _ _ _ _ _ _ Hin Hloop)
      as (Hret & Hq & _ & Ha & _).
    destruct (lines_split_filters pre post l Hpre Hl) as (Hf1 & Hf2 & Hf3).
    pose proof (getlines_sublist_roundtrip _ _ _ _ Hsplit) as Hround.
    change (removeRepeatedly (S (S m)) filename_ fs)
      with (let '(b, fs1) := removeFirstProcessed filename_ fs in
            let '(bs, fs2) := removeRepeatedly (S m) filename_ fs1 in
            (b :: bs, fs2)).
    destruct (removeFirstProcessed filename_ fs) as [b fs1].
    cbn [fst snd] in Hret, Hq, Ha. subst b. specialize (Ha Hne).
    assert (length (nonEmptyLines (getlines (unlines (pre ++ post)))) = m) as Hlen'.
    { rewrite Hround, Hf2. rewrite Hsplit, Hf1 in Hlen. simpl in Hlen. lia. }
    destruct (IH fs1 _ Hq Hlen') as (Hbs & Hq' & Ha').
    destruct (removeRepeatedly (S m) filename_ fs1) as [bs fs2].
    cbn [fst snd] in Hbs, Hq', Ha'. cbn [fst snd].
    rewrite Hsplit, Hf1, Hf3. rewrite Hround in Hq', Ha'. rewrite Hf2 in Ha'.
    split; [now rewrite Hbs|]. split; [exact Hq'|].
    rewrite Ha', Ha. simpl. rewrite !StrFacts.app_assoc. reflexivity.
Qed.

(** X5: calling [removeFirstProcessed] once more than the queue file has
    non-empty lines empties it of them: every call but the last returns
    true, the last returns false, the archive has gained the non-empty
    lines in their order, and the queue file keeps its blank lines only. *)
Theorem repeated_removal_drains_queue (filename_ : string)
    (fs : gmap string string) (content : string) :
  filename_ <> archivePath ->
  fs !! filename_ = Some content ->
  (removeRepeatedly (S (length (nonEmptyLines (getlines content)))) filename_ fs).1
    = replicate (length (nonEmptyLines (getlines content))) true ++ [false] /\
  (removeRepeatedly (S (length (nonEmptyLines (getlines content)))) filename_ fs).2
    !! filename_
    = Some (unlines (blankLines (getlines content))) /\
  (removeRepeatedly (S (length (nonEmptyLines (getlines content)))) filename_ fs).2
    !! archivePath
    = Some (default EmptyString (fs !! archivePath)
            +:+ unlines (nonEmptyLines (getlines content))).
Proof.
  intros Hne Hin. now apply removeRepeatedly_drains.
Qed.

Lemma repeated_removal_drains_queue_witness :
  queuePath <> archivePath /\
  sampleQueue !! queuePath
    = Some (unlines [EmptyString; EmptyString; "Test=1277,70,0  "; "PRP=1,2,89,-1"]) /\
  (removeRepeatedly 3 queuePath sampleQueue).1 = [true; true; false] /\
  (removeRepeatedly 3 queuePath sampleQueue).2 !! queuePath
    = Some (unlines [EmptyString; EmptyString]) /\
  (removeRepeatedly 3 queuePath sampleQueue).2 !! archivePath
    = Some (unlines ["Test=1277,70,0  "; "PRP=1,2,89,-1"]).
Proof.
  assert (queuePath <> archivePath) as Hne by discriminate.
  assert (sampleQueue !! queuePath
          = Some (unlines [EmptyString; EmptyString; "Test=1277,70,0  "; "PRP=1,2,89,-1"]))
    as Hin by reflexivity.
  split; [exact Hne|]. split; [exact Hin|].
  exact (repeated_removal_drains_queue queuePath sampleQueue _ Hne Hin).
Defined.

(** * Further properties: the scan and the rewrite together *)

(** An accepted line is kept in the entry as read, and is not empty. *)
Lemma decodeLine_rawLine (validateFactors : Z -> list string -> bool)
    (stod_u64 : string -> option Z) (line : string)
    (e : WorktodoEntry) (pr : list msg) :
  decodeLine validateFactors stod_u64 line = (Loaded e, pr) ->
  rawLine e = line /\ line <> EmptyString.
Proof.
  intros H. split.
  - apply decodeLine_loaded in H as (? & ? & ? & _ & Hr & _). exact Hr.
  - intros ->. discriminate H.
Qed.



(** X7: [removeFirstProcessed] takes the first non-empty line whether or
    not the decoder accepts it.  When that line is one the decoder skips
    (a comment, a malformed job), it is the line archived, and [parse]
    returns after the call what it returned before: the job it found is
    still in the queue. *)
Theorem skipped_first_line_is_archived
    (validateFactors : Z -> list string -> bool) (stod_u64 : string -> option Z)
    (filename_ : string) (fs : gmap string string) (content : string)
    (pre post : list string) (l : string) :
  filename_ <> archivePath ->
  fs !! filename_ = Some content ->
  getlines content = pre ++ l :: post ->
  Forall (fun x => x = EmptyString) pre ->
  l <> EmptyString ->
  (decodeLine validateFactors stod_u64 l).1 = Skipped ->
  (removeFirstProcessed filename_ fs).1 = true /\
  (removeFirstProcessed filename_ fs).2 !! archivePath
    = Some (default EmptyString (fs !! archivePath) +:+ Str.line l) /\
  (parse validateFactors stod_u64 filename_ (removeFirstProcessed filename_ fs).2).1
    = (parse validateFactors stod_u64 filename_ fs).1.
Proof.
  intros Hne Hin Hsplit Hpre Hnonempty Hl.
  pose proof (archiveLoop_first pre post l EmptyString EmptyString Hpre Hnonempty)
    as Hloop.
  rewrite <- Hsplit in Hloop.
  change (EmptyString +:+ unlines (pre ++ post)) with (unlines (pre ++ post)) in Hloop.
  change (EmptyString +:+ Str.line l) with (Str.line l) in Hloop.
  destruct (removeFirstProcessed_run _ _ _ _ _ _ Hin Hloop)
    as (Hret & Hq & _ & Ha & _).
  split; [exact Hret|]. split; [exact (Ha Hne)|].
  unfold parse. rewrite Hq, Hin, Hsplit.
  rewrite (getlines_sublist_roundtrip _ _ _ _ Hsplit).
  symmetry. now apply parseLines_without_skipped.
Qed.

Lemma skipped_first_line_is_archived_witness :
  queuePath <> archivePath /\
  commentQueue !! queuePath = Some (unlines ["# next"; line_test]) /\
  (parse acceptFactors stod_u64_plain queuePath commentQueue).1 = Loaded testEntry /\
  (removeFirstProcessed queuePath commentQueue).1 = true /\
  (removeFirstProcessed queuePath commentQueue).2 !! archivePath
    = Some (default EmptyString (commentQueue !! archivePath) +:+ Str.line "# next") /\
  (parse acceptFactors stod_u64_plain queuePath
     (removeFirstProcessed queuePath commentQueue).2).1
    = Loaded testEntry.
Proof.
  assert (queuePath <> archivePath) as Hne by discriminate.
  assert (commentQueue !! queuePath = Some (unlines ["# next"; line_test]))
    as Hin by reflexivity.
  assert (getlines (unlines ["# next"; line_test]) = [] ++ "# next" :: [line_test])
    as Hs by reflexivity.
  assert ((parse acceptFactors stod_u64_plain queuePath commentQueue).1
          = Loaded testEntry) as Hp by (vm_compute; reflexivity).
  destruct (skipped_first_line_is_archived acceptFactors stod_u64_plain
              queuePath commentQueue _ [] [line_test] "# next"
              Hne Hin Hs ltac:(constructor) ltac:(discriminate) ltac:(reflexivity))
    as (Hr & Ha & Hsame).
  split; [exact Hne|]. split; [exact Hin|]. split; [exact Hp|].
  split; [exact Hr|]. split; [exact Ha|].
  rewrite Hsame. exact Hp.
Defined.

(** * Further properties: the decoder *)

Lemma guard_undefined (r : run) (body : WorktodoEntry -> list string -> decoded)
    (pr : list msg) :
  guard r body = (Undefined, pr) ->
  exists pr', body (ent r) (rest r) = (Undefined, pr').
Proof.
  unfold guard. destruct (ok r); [|discriminate].
  destruct (body (ent r) (rest r)) as [o l]. intros [= -> _]. eauto.
Qed.

Lemma guard_reason_undefined (r : run) (reason : string)
    (body : WorktodoEntry -> list string -> decoded) (pr : list msg) :
  guard_reason r reason body = (Undefined, pr) ->
  exists pr', body (ent r) (rest r) = (Undefined, pr').
Proof.
  unfold guard_reason. destruct (ok r); [|discriminate].
  destruct (body (ent r) (rest r)) as [o l]. intros [= -> _]. eauto.
Qed.

Lemma require_undefined (cond : bool) (reason : string) (body : decoded)
    (pr : list msg) :
  require cond reason body = (Undefined, pr) -> body = (Undefined, pr).
Proof. unfold require. destruct cond; [auto | discriminate]. Qed.

(** Peel the guards of a hypothesis [... = (Undefined, pr)]. *)
Ltac peel_undefined H :=
  repeat
    match type of H with
    | guard _ _ = (Undefined, _) =>
        let pr' := fresh "pr" in
        apply guard_undefined in H as (pr' & H)
    | guard_reason _ _ _ = (Undefined, _) =>
        let pr' := fresh "pr" in
        apply guard_reason_undefined in H as (pr' & H)
    | require _ _ _ = (Undefined, _) =>
        apply require_undefined in H
    end.

Section UndefinedFacts.

Variable validateFactors : Z -> list string -> bool.
Variable stod_u64 : string -> option Z.

Lemma parsePM1_defined (e0 : WorktodoEntry) (parts : list string) (pr : list msg) :
  parsePM1 stod_u64 e0 parts <> (Undefined, pr).
Proof. unfold parsePM1. intros H. peel_undefined H. discriminate. Qed.

Lemma parseLL_defined (e0 : WorktodoEntry) (parts : list string) (pr : list msg) :
  parseLL e0 parts <> (Undefined, pr).
Proof. unfold parseLL. intros H. peel_undefined H. discriminate. Qed.

Lemma parsePRP_defined (e0 : WorktodoEntry) (parts : list string) (pr : list msg) :
  parsePRP validateFactors e0 parts <> (Undefined, pr).
Proof.
  unfold parsePRP, prpTail. intros H. peel_undefined H.
  unfold prpBaseResidue in H. repeat case_match; discriminate.
Qed.

Lemma parsePF_undefined (e0 : WorktodoEntry) (parts : list string) (pr : list msg) :
  parsePF stod_u64 e0 parts = (Undefined, pr) <-> parts = [] /\ pr = [].
Proof.
  unfold parsePF. split.
  - destruct parts as [|p0 tl]; [intros [= <-]; auto|].
    destruct (parseExponentOrKbnc e0 (p0 :: tl)) as [r|] eqn:E.
    + intros H. peel_undefined H. discriminate.
    + unfold parseExponentOrKbnc in E. destruct (Str.eqb p0 "1"); [|discriminate].
      destruct (ok (parseKbnc e0 (p0 :: tl))); discriminate.
  - intros [-> ->]. reflexivity.
Qed.

End UndefinedFacts.

(** The line decoder, by keyword: which branch a line takes is decided by
    the line alone. *)
Lemma decodeLine_cases (line : string) :
  (forall validateFactors stod_u64,
     decodeLine validateFactors stod_u64 line = (Skipped, [])) \/
  exists top0 top1 more,
    scanned line = true /\
    util_split line "="%char = top0 :: top1 :: more /\
    ((top0 <> "PFactor" /\ top0 <> "Pminus1" /\ top0 <> "Test" /\
      top0 <> "DoubleCheck" /\ top0 <> "PRP" /\ top0 <> "PRPDC" /\
      forall validateFactors stod_u64,
        decodeLine validateFactors stod_u64 line
        = (Skipped, [cerr ("Skip unsupported test type: " +:+ top0)])) \/
     (top0 = "PFactor" /\
      forall validateFactors stod_u64,
        decodeLine validateFactors stod_u64 line
        = parsePF stod_u64 (lineEntry TESTTYPE_PM1 line (fieldTokens true top1).1)
            (fieldTokens true top1).2) \/
     (top0 = "Pminus1" /\
      forall validateFactors stod_u64,
        decodeLine validateFactors stod_u64 line
        = parsePM1 stod_u64 (lineEntry TESTTYPE_PM1 line (fieldTokens true top1).1)
            (fieldTokens true top1).2) \/
     ((top0 = "Test" \/ top0 = "DoubleCheck") /\
      forall (validateFactors : Z -> list string -> bool)
             (stod_u64 : string -> option Z),
        decodeLine validateFactors stod_u64 line
        = parseLL (lineEntry TESTTYPE_LL line (fieldTokens false top1).1)
            (fieldTokens false top1).2) \/
     ((top0 = "PRP" \/ top0 = "PRPDC") /\
      forall validateFactors (stod_u64 : string -> option Z),
        decodeLine validateFactors stod_u64 line
        = parsePRP validateFactors
            (lineEntry TESTTYPE_PRP line (fieldTokens false top1).1)
            (fieldTokens false top1).2)).
Proof.
  unfold decodeLine, scanned.
  destruct (Str.empty line); [left; reflexivity|].
  destruct (match Str.front line with
            | Some ch => Chars.eqb ch "#"%char
            | None => false
            end); [left; reflexivity|].
  destruct (util_split line "="%char) as [|top0 [|top1 more]];
    try (left; reflexivity).
  right. exists top0, top1, more. split; [reflexivity|]. split; [reflexivity|].
  cbv zeta. unfold fieldTokens, lineEntry.
  destruct (Str.eqb top0 "PFactor") eqn:EPF.
  { apply StrFacts.eqb_spec in EPF. subst top0. right; left.
    split; [reflexivity|]. intros vf st.
    destruct (takeAid _ _) as [a parts]. reflexivity. }
  destruct (Str.eqb top0 "Pminus1") eqn:EPM.
  { apply StrFacts.eqb_spec in EPM. subst top0. right; right; left.
    split; [reflexivity|]. intros vf st.
    destruct (takeAid _ _) as [a parts]. reflexivity. }
  destruct (Str.eqb top0 "Test" || Str.eqb top0 "DoubleCheck") eqn:ELL.
  { right; right; right; left. split.
    - apply orb_true_iff in ELL as [E|E]; apply StrFacts.eqb_spec in E; auto.
    - intros vf st. cbn [orb negb]. destruct (takeAid _ _) as [a parts]. reflexivity. }
  destruct (Str.eqb top0 "PRP" || Str.eqb top0 "PRPDC") eqn:EPRP.
  { right; right; right; right. split.
    - apply orb_true_iff in EPRP as [E|E]; apply StrFacts.eqb_spec in E; auto.
    - intros vf st. cbn [orb negb]. destruct (takeAid _ _) as [a parts]. reflexivity. }
  left.
  apply orb_false_elim in ELL as [E1 E2]. apply orb_false_elim in EPRP as [E3 E4].
  repeat (split; [intros ->; discriminate|]).
  intros vf st. reflexivity.
Qed.


(** X8: of the element reads of the decoder ([line[0]], [top[i]],
    [parts[i]], [kbnc[i]], [back()], [front()]), one can be out of range,
    the [parts[0]] of line 148: the outcome [Undefined], which stands for
    such a read, is reached exactly on a PFactor line with no field token
    left once the placeholder and the assignment ID are taken (PFactor=N/A,
    PFactor=AID), and nothing is printed before.  Every other read is behind
    a test of the size.  What C++ leaves undefined elsewhere (the cast of
    line 162 on a value out of range, [std::isspace] on a negative [char])
    is no element read and has no outcome of its own in this model. *)
Theorem unchecked_read_iff_bare_pfactor (validateFactors : Z -> list string -> bool)
    (stod_u64 : string -> option Z) (line : string) (pr : list msg) :
  decodeLine validateFactors stod_u64 line = (Undefined, pr)
  <-> pr = [] /\ scanned line = true /\
      exists top1 more,
        util_split line "="%char = "PFactor" :: top1 :: more /\
        (fieldTokens true top1).2 = [].
Proof.
  split.
  - intros H.
    destruct (decodeLine_cases line)
      as [E|(top0 & top1 & more & Hsc & Hsplit & Hcases)];
      [rewrite E in H; discriminate|].
    destruct Hcases
      as [(_ & _ & _ & _ & _ & _ & E)|[(-> & E)|[(_ & E)|[(_ & E)|(_ & E)]]]];
      rewrite E in H; try discriminate.
    + apply parsePF_undefined in H as [Hp ->].
      split; [reflexivity|]. split; [exact Hsc|]. eauto.
    + now apply parsePM1_defined in H.
    + now apply parseLL_defined in H.
    + now apply parsePRP_defined in H.
  - intros (-> & Hsc & top1 & more & Hsplit & Hp).
    unfold decodeLine. unfold scanned in Hsc.
    apply andb_true_iff in Hsc as [H1 H2].
    apply negb_true_iff in H1, H2. rewrite H1, H2, Hsplit.
    change (Str.eqb "PFactor" "PRP") with false.
    change (Str.eqb "PFactor" "PRPDC") with false.
    change (Str.eqb "PFactor" "Test") with false.
    change (Str.eqb "PFactor" "DoubleCheck") with false.
    change (Str.eqb "PFactor" "Pminus1") with false.
    change (Str.eqb "PFactor" "PFactor") with true.
    cbn [orb negb]. cbv zeta.
    unfold fieldTokens in Hp.
    destruct (takeAid true _) as [a parts]. simpl in Hp. subst parts.
    reflexivity.
Qed.

Example bare_pfactor_line :
  decodeLine acceptFactors stod_u64_plain "PFactor=AID" = (Undefined, []).
Proof. vm_compute. reflexivity. Qed.

(** ** What an accepted entry carries *)

Lemma digits_lower (s : string) :
  forall acc seen v, 0 <= acc -> Conv.digits s acc seen = Some v -> 0 <= v.
Proof.
  induction s as [|ch s IH]; intros acc seen v Hacc; simpl.
  - destruct seen; [intros [= <-]; exact Hacc | discriminate].
  - destruct (Chars.isdigit ch) eqn:Ed.
    + apply IH. unfold Chars.isdigit in Ed. apply andb_true_iff in Ed as [Hlo _].
      apply N.leb_le in Hlo. unfold Chars.digit_val. lia.
    + destruct seen; [intros [= <-]; exact Hacc | discriminate].
Qed.

Lemma stoul_range (s : string) (v : Z) :
  Conv.stoul s = Some v -> 0 <= v < 2 ^ 64.
Proof.
  unfold Conv.stoul, Conv.magnitude.
  destruct (Conv.take_sign (Conv.skip_space s)) as [neg s'].
  destruct (Conv.digits s' 0 false) as [m|] eqn:E; [|discriminate].
  apply digits_lower in E; [|lia].
  destruct (Conv.ULONG_MAX <? m) eqn:Hmax; [discriminate|].
  apply Z.ltb_ge in Hmax. unfold Conv.ULONG_MAX in Hmax.
  destruct neg; intros [= <-].
  - apply Z.mod_pos_bound. lia.
  - lia.
Qed.

Section EntryFacts.

Variable validateFactors : Z -> list string -> bool.
Variable stod_u64 : string -> option Z.

Lemma parseFactoringOpts_bounds (e : WorktodoEntry) (p : list string) :
  ok (parseFactoringOpts stod_u64 e p) = true ->
  exists b1 b2,
    options (ent (parseFactoringOpts stod_u64 e p)) = factoring b1 b2 /\
    1 <= b1 < 2 ^ 64 /\ b1 <= b2.
Proof.
  unfold parseFactoringOpts, Conv.stoull.
  destruct p as [|p0 [|p1 tl]]; try discriminate.
  destruct (Conv.stoul p0) as [b1|] eqn:E1; [|discriminate].
  destruct (stod_u64 p1) as [b2|]; [|discriminate].
  destruct ((b1 =? 0) || (b2 <? b1)) eqn:Ec; [discriminate|].
  intros _. apply orb_false_elim in Ec as [H0 Hlt].
  apply Z.eqb_neq in H0. apply Z.ltb_ge in Hlt. apply stoul_range in E1.
  exists b1, b2. simpl. repeat split; lia.
Qed.

Lemma parsePF_options (e0 : WorktodoEntry) (parts : list string)
    (e : WorktodoEntry) (pr : list msg) :
  parsePF stod_u64 e0 parts = (Loaded e, pr) ->
  exists b1 b2, options e = factoring b1 b2 /\ 1 <= b1 < 2 ^ 64 /\ b1 <= b2.
Proof.
  unfold parsePF. intros H.
  destruct (parseExponentOrKbnc e0 parts) as [r1|]; [|discriminate].
  peel H.
  match type of Hok2 with
  | ok (parseFactoringOpts _ ?e4 ?p4) = true =>
      destruct (parseFactoringOpts_bounds e4 p4 Hok2) as (b1 & b2 & Ho & Hb);
      destruct (parseMaybeFactors_frame
                  (ent (parseFactoringOpts stod_u64 e4 p4))
                  (rest (parseFactoringOpts stod_u64 e4 p4)))
        as (_ & _ & Ho' & _)
  end.
  injection H as <- _. exists b1, b2. split; [congruence | exact Hb].
Qed.

Lemma parsePM1_options (e0 : WorktodoEntry) (parts : list string)
    (e : WorktodoEntry) (pr : list msg) :
  parsePM1 stod_u64 e0 parts = (Loaded e, pr) ->
  exists b1 b2, options e = factoring b1 b2 /\ 1 <= b1 < 2 ^ 64 /\ b1 <= b2.
Proof.
  unfold parsePM1. intros H. peel H.
  match type of Hok0 with
  | ok (parseFactoringOpts _ ?e4 ?p4) = true =>
      destruct (parseFactoringOpts_bounds e4 p4 Hok0) as (b1 & b2 & Ho & Hb);
      set (r2 := parseFactoringOpts stod_u64 e4 p4) in *
  end.
  destruct (parseMandatorySomething_frame (ent r2) (rest r2)) as (He3 & _ & _).
  set (r3 := parseMandatorySomething (ent r2) (rest r2)) in *.
  destruct (parseMaybeFactors_frame (ent r3) (rest r3)) as (_ & _ & Ho' & _).
  injection H as <- _. exists b1, b2. split; [congruence | exact Hb].
Qed.

(** The factors block of a PRP line: it validates, or it leaves the
    options alone and, on a Mersenne entry, the factors too. *)
Lemma prpFactors_validated (e : WorktodoEntry) (p : list string) :
  ok (prpFactors validateFactors e p) = true ->
  (options (ent (prpFactors validateFactors e p)) = primality 5 /\
   isMersenne (ent (prpFactors validateFactors e p)) = true /\
   validateFactors (exponent (ent (prpFactors validateFactors e p)))
     (knownFactors (ent (prpFactors validateFactors e p))) = true) \/
  (options (ent (prpFactors validateFactors e p)) = options e /\
   (isMersenne (ent (prpFactors validateFactors e p)) = true ->
    knownFactors (ent (prpFactors validateFactors e p)) = knownFactors e)).
Proof.
  unfold prpFactors.
  destruct (parsePartsFactors_frame e p) as (_ & _ & Ho & _ & _ & _).
  destruct (_ || _); [|intros _; right; auto].
  destruct (negb (ok (parsePartsFactors e p))); [discriminate|].
  destruct (isMersenne (ent (parsePartsFactors e p))) eqn:Em.
  - destruct (validateFactors _ _) eqn:Ev; [|discriminate].
    intros _. left. cbn [negb ent]. repeat split; assumption.
  - intros _. right. split; [exact Ho|]. rewrite Em. discriminate.
Qed.

Lemma parsePRP_validated (e0 : WorktodoEntry) (parts : list string)
    (e : WorktodoEntry) (pr : list msg) :
  options e0 = primality 1 ->
  knownFactors e0 = [] ->
  parsePRP validateFactors e0 parts = (Loaded e, pr) ->
  (options e = primality 5 /\ isMersenne e = true /\
   validateFactors (exponent e) (knownFactors e) = true) \/
  (options e = primality 1 /\ (isMersenne e = true -> knownFactors e = [])).
Proof.
  intros Ho0 Hkf0. unfold parsePRP, prpTail. intros H. peel H.
  destruct (parseKbnc_frame e0 parts) as (_ & Hkf1 & Ho1 & _).
  set (r1 := parseKbnc e0 parts) in *.
  destruct (prpFactors_validated (ent r1) (rest r1) Hok0) as [Hv|[Ho2 Hkf2]].
  - apply prpBaseResidue_loaded in H as (-> & _). left. exact Hv.
  - apply prpBaseResidue_loaded in H as (-> & _). right.
    split; [congruence|]. intros Hm. rewrite (Hkf2 Hm). congruence.
Qed.

End EntryFacts.

(** X9: an accepted line can be decoded again from the entry: decoding
    [rawLine] gives the same entry.  The options follow the kind: a Test or
    DoubleCheck entry has residue type 1 and no known factor, a PRP entry
    has residue type 1 or 5, and a PFactor or Pminus1 entry has bounds with
    1 <= B1 <= B2 and B1 below 2^64. *)
Theorem accepted_entry_shape (validateFactors : Z -> list string -> bool)
    (stod_u64 : string -> option Z) (line : string)
    (e : WorktodoEntry) (pr : list msg) :
  decodeLine validateFactors stod_u64 line = (Loaded e, pr) ->
  decodeLine validateFactors stod_u64 (rawLine e) = (Loaded e, pr) /\
  match testType e with
  | TESTTYPE_LL => options e = primality 1 /\ knownFactors e = []
  | TESTTYPE_PRP => options e = primality 1 \/ options e = primality 5
  | TESTTYPE_PM1 =>
      exists b1 b2, options e = factoring b1 b2 /\ 1 <= b1 < 2 ^ 64 /\ b1 <= b2
  | TESTTYPE_UNSUPPORTED => False
  end.
Proof.
  intros H.
  destruct (decodeLine_rawLine _ _ _ _ _ H) as [Hraw _].
  split; [now rewrite Hraw|].
  destruct (decodeLine_cases line)
    as [E|(top0 & top1 & more & _ & _ & Hcases)];
    [rewrite E in H; discriminate|].
  destruct Hcases
    as [(_ & _ & _ & _ & _ & _ & E)|[(_ & E)|[(_ & E)|[(_ & E)|(_ & E)]]]];
    rewrite E in H; try discriminate.
  - destruct (parsePF_loaded _ _ _ _ _ H) as ((Hty & _) & _).
    rewrite Hty. simpl. exact (parsePF_options _ _ _ _ _ H).
  - destruct (parsePM1_loaded _ _ _ _ _ H) as ((Hty & _) & _).
    rewrite Hty. simpl. exact (parsePM1_options _ _ _ _ _ H).
  - destruct (parseLL_loaded _ _ _ _ H)
      as ((Hty & _) & _ & _ & _ & _ & Hkf & Ho & _).
    rewrite Hty. simpl. split; assumption.
  - destruct (parsePRP_loaded _ _ _ _ _ H)
      as ((Hty & _) & _ & _ & _ & _ & Ho & _).
    rewrite Hty. simpl. exact Ho.
Qed.

Lemma accepted_entry_shape_witness :
  decodeLine acceptFactors stod_u64_plain (line_pminus1 +:+ ",x")
  = (Loaded (mkEntry TESTTYPE_PM1 1277 1 2 (-1) EmptyString
               (line_pminus1 +:+ ",x") [] (factoring 1000 50000)), []) /\
  exists b1 b2, factoring 1000 50000 = factoring b1 b2 /\ 1 <= b1 < 2 ^ 64 /\ b1 <= b2.
Proof.
  assert (decodeLine acceptFactors stod_u64_plain (line_pminus1 +:+ ",x")
          = (Loaded (mkEntry TESTTYPE_PM1 1277 1 2 (-1) EmptyString
                       (line_pminus1 +:+ ",x") [] (factoring 1000 50000)), []))
    as H by (vm_compute; reflexivity).
  split; [exact H|].
  exact (proj2 (accepted_entry_shape acceptFactors stod_u64_plain _ _ _ H)).
Defined.

(** X10: the numbers an accepted entry can stand for.  A PFactor or Pminus1
    entry is Mersenne (k = 1, b = 2, c = -1).  A PRP entry is Mersenne, or
    has k = 1, b = 2, c = 1, residue type 1 and "3" as its first known
    factor.  A Mersenne PRP entry has residue type 5 together with an
    exponent and factors that the validation predicate accepted, or it has
    residue type 1 and no known factor. *)
Theorem accepted_forms (validateFactors : Z -> list string -> bool)
    (stod_u64 : string -> option Z) (line : string)
    (e : WorktodoEntry) (pr : list msg) :
  decodeLine validateFactors stod_u64 line = (Loaded e, pr) ->
  match testType e with
  | TESTTYPE_PM1 => k e = 1 /\ b e = 2 /\ c e = -1
  | TESTTYPE_PRP =>
      k e = 1 /\ b e = 2 /\
      ((c e = -1 /\ residueType_of e = 5 /\
        validateFactors (exponent e) (knownFactors e) = true) \/
       (c e = -1 /\ residueType_of e = 1 /\ knownFactors e = []) \/
       (c e = 1 /\ residueType_of e = 1 /\
        exists more, knownFactors e = "3" :: more))
  | _ => True
  end.
Proof.
  intros H.
  assert (forall e', isMersenne e' = true -> k e' = 1 /\ b e' = 2 /\ c e' = -1) as Hm.
  { intros e' Hm. unfold isMersenne in Hm.
    apply andb_true_iff in Hm as [Hm Hc]. apply andb_true_iff in Hm as [Hk Hb].
    apply Z.eqb_eq in Hk, Hb, Hc. auto. }
  destruct (decodeLine_cases line)
    as [E|(top0 & top1 & more & _ & _ & Hcases)];
    [rewrite E in H; discriminate|].
  destruct Hcases
    as [(_ & _ & _ & _ & _ & _ & E)|[(_ & E)|[(_ & E)|[(_ & E)|(_ & E)]]]];
    rewrite E in H; try discriminate.
  - destruct (parsePF_loaded _ _ _ _ _ H) as ((Hty & _) & Hmers & _).
    rewrite Hty. simpl. auto.
  - destruct (parsePM1_loaded _ _ _ _ _ H) as ((Hty & _) & Hmers & _).
    rewrite Hty. simpl. auto.
  - destruct (parseLL_loaded _ _ _ _ H) as ((Hty & _) & _).
    rewrite Hty. simpl. exact I.
  - destruct (parsePRP_loaded _ _ _ _ _ H)
      as ((Hty & _) & _ & _ & _ & Hsup & _).
    rewrite Hty. simpl.
    pose proof H as Hv.
    apply parsePRP_validated in Hv; [|reflexivity|reflexivity].
    unfold residueType_of.
    destruct Hv as [(Ho & Hmers & Hvf)|(Ho & Hkf)]; rewrite Ho.
    + destruct (Hm _ Hmers) as (Hk & Hb & Hc).
      split; [exact Hk|]. split; [exact Hb|]. left. auto.
    + destruct (isMersenne e) eqn:Emers.
      * destruct (Hm e Emers) as (Hk & Hb & Hc). specialize (Hkf eq_refl).
        split; [exact Hk|]. split; [exact Hb|]. right; left. auto.
      * simpl in Hsup. unfold isWagstaff in Hsup.
        apply andb_true_iff in Hsup as [Hsup Hf].
        apply andb_true_iff in Hsup as [Hsup Hc].
        apply andb_true_iff in Hsup as [Hk Hb].
        apply Z.eqb_eq in Hk, Hb, Hc.
        split; [exact Hk|]. split; [exact Hb|]. right; right.
        split; [exact Hc|]. split; [reflexivity|].
        destruct (knownFactors e) as [|f fs]; [discriminate|].
        apply StrFacts.eqb_spec in Hf. subst f. eauto.
Qed.

Lemma accepted_forms_witness :
  decodeLine rejectFactors stod_u64_plain line_prp_gap = (Loaded gapEntry, []) /\
  k gapEntry = 1 /\ b gapEntry = 2 /\
  ((c gapEntry = -1 /\ residueType_of gapEntry = 5 /\
    rejectFactors (exponent gapEntry) (knownFactors gapEntry) = true) \/
   (c gapEntry = -1 /\ residueType_of gapEntry = 1 /\ knownFactors gapEntry = []) \/
   (c gapEntry = 1 /\ residueType_of gapEntry = 1 /\
    exists more, knownFactors gapEntry = "3" :: more)).
Proof.
  assert (decodeLine rejectFactors stod_u64_plain line_prp_gap
          = (Loaded gapEntry, [])) as H by (vm_compute; reflexivity).
  split; [exact H|].
  exact (accepted_forms rejectFactors stod_u64_plain line_prp_gap gapEntry [] H).
Defined.

(** X11: the validation predicate plays no part in a line whose keyword is
    not PRP or PRPDC (the known factors of a PFactor or Pminus1 line are
    never validated), and the conversion of B2 plays no part in a line whose
    keyword is not PFactor or Pminus1. *)
Theorem predicate_and_conversion_scope
    (validateFactors validateFactors' : Z -> list string -> bool)
    (stod_u64 stod_u64' : string -> option Z)
    (line top0 top1 : string) (more : list string) :
  util_split line "="%char = top0 :: top1 :: more ->
  (top0 <> "PRP" -> top0 <> "PRPDC" ->
   decodeLine validateFactors stod_u64 line
   = decodeLine validateFactors' stod_u64 line) /\
  (top0 <> "PFactor" -> top0 <> "Pminus1" ->
   decodeLine validateFactors stod_u64 line
   = decodeLine validateFactors stod_u64' line).
Proof.
  intros Hsplit.
  destruct (decodeLine_cases line)
    as [E|(t0 & t1 & m & _ & Hsplit' & Hcases)].
  { split; intros _ _; now rewrite !E. }
  rewrite Hsplit in Hsplit'. injection Hsplit' as <- <- <-.
  destruct Hcases
    as [(_ & _ & _ & _ & _ & _ & E)|[(Hk & E)|[(Hk & E)|[(Hk & E)|(Hk & E)]]]];
    split; intros H1 H2; rewrite ?E; try reflexivity;
    try contradiction; destruct Hk; contradiction.
Qed.

Lemma predicate_and_conversion_scope_witness :
  util_split (line_pminus1 +:+ ",x") "="%char
    = ["Pminus1"; "1,2,1277,-1,1000,50000,70,x"] /\
  decodeLine acceptFactors stod_u64_plain (line_pminus1 +:+ ",x")
  = decodeLine rejectFactors stod_u64_plain (line_pminus1 +:+ ",x").
Proof.
  assert (util_split (line_pminus1 +:+ ",x") "="%char
          = ["Pminus1"; "1,2,1277,-1,1000,50000,70,x"]) as Hs by reflexivity.
  split; [exact Hs|].
  apply (proj1 (predicate_and_conversion_scope acceptFactors rejectFactors
                  stod_u64_plain stod_u64_plain _ _ _ _ Hs)); discriminate.
Defined.


Lemma to_u32_negated (m : Z) :
  0 < m < 2 ^ 32 -> Conv.to_u32 ((2 ^ 64 - m) mod 2 ^ 64) = 2 ^ 32 - m.
Proof.
  intros Hm. unfold Conv.to_u32.
  rewrite (Z.mod_small (2 ^ 64 - m)) by lia.
  replace (2 ^ 64 - m) with ((2 ^ 32 - m) + (2 ^ 32 - 1) * 2 ^ 32) by lia.
  rewrite Z_mod_plus_full. apply Z.mod_small. lia.
Qed.

(** X13: a minus sign does not make an exponent token fail: [std::stoul]
    negates modulo 2^64 and the cast keeps the low 32 bits, so a token that
    reads as -m with 0 < m < 2^32 is accepted as the exponent 2^32 - m. *)
Theorem negative_exponent_wraps (e : WorktodoEntry) (t : string)
    (tl : list string) (m : Z) :
  Conv.magnitude t = Some (true, m) ->
  0 < m < 2 ^ 32 ->
  parseExponent e (t :: tl) = Run true (set_exponent e (2 ^ 32 - m)) tl [].
Proof.
  intros Hmag Hm. unfold parseExponent, Conv.stoul. rewrite Hmag.
  assert ((Conv.ULONG_MAX <? m) = false) as ->.
  { apply Z.ltb_ge. unfold Conv.ULONG_MAX. lia. }
  rewrite (to_u32_negated m Hm).
  change (exponent (set_exponent e (2 ^ 32 - m))) with (2 ^ 32 - m).
  assert ((2 ^ 32 - m =? 0) = false) as -> by (apply Z.eqb_neq; lia).
  reflexivity.
Qed.

Lemma negative_exponent_wraps_witness :
  Conv.magnitude "-1" = Some (true, 1) /\
  parseExponent defaultEntry ["-1"; "0"; "0"]
  = Run true (set_exponent defaultEntry 4294967295) ["0"; "0"] [].
Proof.
  assert (Conv.magnitude "-1" = Some (true, 1)) as Hm by reflexivity.
  split; [exact Hm|].
  apply (negative_exponent_wraps defaultEntry "-1" ["0"; "0"] 1 Hm). lia.
Defined.

Example negative_exponent_line :
  decodeLine acceptFactors stod_u64_plain "Test=-1,0,0"
  = (Loaded (mkEntry TESTTYPE_LL 4294967295 0 0 0 EmptyString "Test=-1,0,0" []
               (primality 1)), []).
Proof. vm_compute. reflexivity. Qed.

(** * Further properties: the tokenizer and the factor list *)

Lemma no_char_eqb (c ch : ascii) : ch <> c -> Chars.eqb ch c = false.
Proof.
  intros H. destruct (Chars.eqb ch c) eqn:E; [|reflexivity].
  apply Ascii.eqb_eq in E. contradiction.
Qed.

Lemma srq_loop_no_quote (delim : ascii) (s : string) :
  no_char Chars.dquote s ->
  forall result current,
    srq_loop delim s result current false = getline_loop delim s result current.
Proof.
  induction s as [|ch s IH]; intros Hs result current; [reflexivity|].
  destruct Hs as [Hch Hs]. simpl.
  rewrite (no_char_eqb _ _ Hch), andb_true_r.
  destruct (Chars.eqb ch delim); apply IH; assumption.
Qed.

Lemma srq_loop_result (delim : ascii) (s : string) :
  forall result current inQuotes,
    srq_loop delim s result current inQuotes
    = result ++ srq_loop delim s [] current inQuotes.
Proof.
  induction s as [|ch s IH]; intros result current inQuotes; simpl.
  - destruct (Str.empty current); [now rewrite app_nil_r | reflexivity].
  - destruct (Chars.eqb ch Chars.dquote); [apply IH|].
    destruct (Chars.eqb ch delim && negb inQuotes); [|apply IH].
    rewrite IH, (IH [current]). now rewrite app_assoc.
Qed.

(** A quote-free text followed by a delimiter: the loop goes on from the
    tokens of the text, with nothing pending. *)
Lemma srq_loop_past_delimiter (delim : ascii) (s t : string) :
  delim <> Chars.dquote ->
  no_char Chars.dquote s ->
  forall result current,
    srq_loop delim (s +:+ String delim t) result current false
    = srq_loop delim t
        (getline_loop delim (s +:+ String delim EmptyString) result current)
        EmptyString false.
Proof.
  intros Hd. induction s as [|ch s IH]; intros Hs result current.
  - change (EmptyString +:+ String delim t) with (String delim t).
    change (EmptyString +:+ String delim EmptyString) with (String delim EmptyString).
    simpl. rewrite (no_char_eqb _ _ Hd).
    unfold Chars.eqb. rewrite Ascii.eqb_refl. reflexivity.
  - destruct Hs as [Hch Hs]. rewrite !StrFacts.app_cons. simpl.
    rewrite (no_char_eqb _ _ Hch), andb_true_r.
    destruct (Chars.eqb ch delim); apply IH; assumption.
Qed.

(** Inside quotes nothing splits until the closing quote. *)
Lemma srq_loop_in_quotes (delim : ascii) (content : string) :
  no_char Chars.dquote content ->
  forall result current,
    srq_loop delim (content +:+ String Chars.dquote EmptyString) result current true
    = result ++ [current +:+ content +:+ String Chars.dquote EmptyString].
Proof.
  induction content as [|ch s IH]; intros Hs result current.
  - change (EmptyString +:+ String Chars.dquote EmptyString)
      with (String Chars.dquote EmptyString).
    simpl. change (Chars.eqb Chars.dquote Chars.dquote) with true. cbv iota.
    fold (Str.push_back current Chars.dquote).
    now rewrite StrFacts.empty_push_back.
  - destruct Hs as [Hch Hs]. rewrite !StrFacts.app_cons. simpl.
    rewrite (no_char_eqb _ _ Hch), andb_false_r.
    rewrite (IH Hs). unfold Str.push_back.
    now rewrite StrFacts.app_assoc.
Qed.

(** X14: [splitRespectingQuotes] on a text without a double quote splits
    at every delimiter, as the plain reading loop does; and when such a
    text is followed by a delimiter and a quoted span, the span comes out as
    one last token, quotes included, whatever delimiters it holds. *)
Theorem quoted_span_is_one_token (delim : ascii) (s : string) :
  no_char Chars.dquote s ->
  splitRespectingQuotes s delim = getline_loop delim s [] EmptyString /\
  forall content,
    no_char Chars.dquote content ->
    delim <> Chars.dquote ->
    splitRespectingQuotes (s +:+ String delim (Str.quoted content)) delim
    = getline_loop delim (s +:+ String delim EmptyString) [] EmptyString
      ++ [Str.quoted content].
Proof.
  intros Hs. unfold splitRespectingQuotes. split.
  - now apply srq_loop_no_quote.
  - intros content Hc Hd.
    rewrite (srq_loop_past_delimiter delim s _ Hd Hs).
    rewrite srq_loop_result. f_equal.
    unfold Str.quoted. simpl.
    change (Chars.eqb Chars.dquote Chars.dquote) with true. cbv iota.
    rewrite (srq_loop_in_quotes delim content Hc). reflexivity.
Qed.

Lemma quoted_span_is_one_token_witness :
  no_char Chars.dquote "1,2,89,1" /\
  splitRespectingQuotes ("1,2,89,1" +:+ String ","%char (Str.quoted "3,,5")) ","%char
  = ["1"; "2"; "89"; "1"; Str.quoted "3,,5"].
Proof.
  assert (no_char Chars.dquote "1,2,89,1") as Hs.
  { simpl. repeat split; discriminate. }
  split; [exact Hs|].
  apply (proj2 (quoted_span_is_one_token ","%char "1,2,89,1" Hs) "3,,5").
  - simpl. repeat split; discriminate.
  - discriminate.
Defined.

(** A non-empty string is what [pop_back] leaves, then its last character. *)
Lemma pop_back_back (s : string) :
  s <> EmptyString ->
  exists ch, Str.back s = Some ch /\ s = Str.pop_back s +:+ String ch EmptyString.
Proof.
  induction s as [|x s IH]; [congruence|]. intros _.
  destruct s as [|y s'].
  - exists x. split; reflexivity.
  - destruct IH as (ch & Hb & Hs); [discriminate|].
    exists ch. split; [exact Hb|].
    change (Str.pop_back (String x (String y s')))
      with (String x (Str.pop_back (String y s'))).
    rewrite StrFacts.app_cons. now rewrite <- Hs.
Qed.

Lemma all_app (p : ascii -> bool) (s t : string) :
  Str.all p (s +:+ t) = Str.all p s && Str.all p t.
Proof.
  induction s as [|x s IH]; [reflexivity|].
  rewrite StrFacts.app_cons. simpl. now rewrite IH, andb_assoc.
Qed.

Lemma trim_back_spaces (n : nat) :
  forall ws s,
    String.length ws = n ->
    Str.all Chars.isspace ws = true ->
    forall fuel, (n <= fuel)%nat ->
    trim_back fuel (s +:+ ws) = trim_back (fuel - n) s.
Proof.
  induction n as [|n IH]; intros ws s Hlen Hall fuel Hfuel.
  - destruct ws; [|discriminate]. rewrite StrFacts.app_nil_r.
    now rewrite Nat.sub_0_r.
  - assert (ws <> EmptyString) as Hne by (intros ->; discriminate).
    destruct (pop_back_back ws Hne) as (ch & Hb & Hws).
    rewrite Hws in Hall, Hlen |- *. rewrite all_app in Hall.
    apply andb_true_iff in Hall as [Hall Hch]. simpl in Hch.
    rewrite andb_true_r in Hch.
    rewrite StrFacts.length_app in Hlen. simpl in Hlen.
    destruct fuel as [|fuel]; [lia|].
    rewrite <- StrFacts.app_assoc. cbn [trim_back].
    rewrite StrFacts.back_app_cons. cbn [Str.back]. rewrite Hch.
    rewrite pop_back_push.
    rewrite (IH (Str.pop_back ws) s) by (assumption || lia).
    reflexivity.
Qed.

(** X15: [parseFactors] does not see white space after a token, a carriage
    return left by a CRLF line ending for instance: the factors of the
    token with white space appended are those of the token. *)
Theorem parseFactors_trailing_space (t ws : string) :
  Str.all Chars.isspace ws = true ->
  parseFactors (t +:+ ws) = parseFactors t.
Proof.
  intros Hall. unfold parseFactors, Str.size.
  rewrite (trim_back_spaces (String.length ws) ws t eq_refl Hall)
    by (rewrite StrFacts.length_app; lia).
  rewrite StrFacts.length_app.
  replace (String.length t + String.length ws - String.length ws)%nat
    with (String.length t) by lia.
  reflexivity.
Qed.

Lemma parseFactors_trailing_space_witness :
  Str.all Chars.isspace (String "013"%char EmptyString) = true /\
  parseFactors (Str.quoted "3,5" +:+ String "013"%char EmptyString) = ["3"; "5"].
Proof.
  assert (Str.all Chars.isspace (String "013"%char EmptyString) = true) as H
    by reflexivity.
  split; [exact H|].
  rewrite (parseFactors_trailing_space (Str.quoted "3,5") _ H). reflexivity.
Defined.

(** * Further properties: the trimming lambda *)

Lemma find_first_past_blanks (lead s : string) :
  Str.all isBlank lead = true ->
  find_first_not_of (lead +:+ s)
  = option_map (Nat.add (String.length lead)) (find_first_not_of s).
Proof.
  induction lead as [|ch lead IH]; intros H.
  - change (EmptyString +:+ s) with s. now destruct (find_first_not_of s).
  - simpl in H. apply andb_true_iff in H as [Hch H].
    rewrite StrFacts.app_cons. simpl. rewrite Hch, (IH H).
    now destruct (find_first_not_of s).
Qed.

Lemma find_last_app (s t : string) :
  find_last_not_of (s +:+ t)
  = match find_last_not_of t with
    | Some i => Some (String.length s + i)%nat
    | None => find_last_not_of s
    end.
Proof.
  induction s as [|ch s IH].
  - change (EmptyString +:+ t) with t. now destruct (find_last_not_of t).
  - rewrite StrFacts.app_cons. simpl. rewrite IH.
    destruct (find_last_not_of t); reflexivity.
Qed.

Lemma find_last_blanks (s : string) :
  Str.all isBlank s = true -> find_last_not_of s = None.
Proof.
  induction s as [|ch s IH]; [reflexivity|]. simpl.
  intros H. apply andb_true_iff in H as [Hch H]. now rewrite (IH H), Hch.
Qed.

Lemma find_last_at_back (s : string) (l : ascii) :
  Str.back s = Some l -> isBlank l = false ->
  find_last_not_of s = Some (String.length s - 1)%nat.
Proof.
  intros Hb Hl.
  assert (s <> EmptyString) as Hne by (intros ->; discriminate).
  destruct (pop_back_back s Hne) as (ch & Hb' & Hs).
  rewrite Hb in Hb'. injection Hb' as <-.
  rewrite Hs at 1. rewrite find_last_app. simpl. rewrite Hl.
  rewrite Hs at 2. rewrite StrFacts.length_app. simpl. f_equal. lia.
Qed.

Lemma substring_past (s t : string) (n : nat) :
  String.substring (String.length s) n (s +:+ t) = String.substring 0 n t.
Proof.
  induction s as [|ch s IH]; [reflexivity|].
  rewrite StrFacts.app_cons. simpl. exact IH.
Qed.

Lemma substring_prefix (s t : string) :
  String.substring 0 (String.length s) (s +:+ t) = s.
Proof.
  induction s as [|ch s IH]; [now destruct t|].
  rewrite StrFacts.app_cons. simpl. now rewrite IH.
Qed.

(** X16: the trimming lambda returns the text between the blanks: for a
    text made of blanks of the set, then a core that begins and ends with
    other characters, then blanks again, the result is the core, blanks
    inside it kept. *)
Theorem trim_inplace_core (lead core trail : string) (f l : ascii) :
  Str.all isBlank lead = true ->
  Str.all isBlank trail = true ->
  Str.front core = Some f -> isBlank f = false ->
  Str.back core = Some l -> isBlank l = false ->
  trim_inplace (lead +:+ core +:+ trail) = core.
Proof.
  intros Hlead Htrail Hf Hfb Hl Hlb. unfold trim_inplace.
  assert (find_first_not_of (core +:+ trail) = Some O) as Hfirst.
  { destruct core as [|c0 core']; [discriminate|]. injection Hf as ->.
    rewrite StrFacts.app_cons. simpl. now rewrite Hfb. }
  rewrite (find_first_past_blanks lead _ Hlead), Hfirst. simpl.
  rewrite find_last_app, find_last_app, (find_last_blanks _ Htrail).
  rewrite (find_last_at_back core l Hl Hlb).
  assert (String.length core <> 0%nat) as Hnz by (destruct core; discriminate).
  replace (String.length lead + (String.length core - 1)
           - (String.length lead + 0) + 1)%nat
    with (String.length core) by lia.
  rewrite Nat.add_0_r, substring_past. apply substring_prefix.
Qed.

Lemma trim_inplace_core_witness :
  trim_inplace ("  " +:+ "Test=1277,70,0" +:+ String "013"%char EmptyString)
  = "Test=1277,70,0".
Proof.
  apply (trim_inplace_core "  " "Test=1277,70,0" (String "013"%char EmptyString)
           "T"%char "0"%char); reflexivity.
Defined.

(** A text of blanks only is cleared. *)
Lemma trim_inplace_blank (s : string) :
  Str.all isBlank s = true -> trim_inplace s = EmptyString.
Proof.
  intros H. unfold trim_inplace.
  assert (find_first_not_of s = None) as ->; [|reflexivity].
  induction s as [|ch s IH]; [reflexivity|]. simpl in *.
  apply andb_true_iff in H as [Hch H]. now rewrite Hch, (IH H).
Qed.

(** The lines are not trimmed before they are decoded: a blank before the
    keyword makes it an unsupported one. *)
Example untrimmed_line_skipped :
  decodeLine acceptFactors stod_u64_plain " Test=1277,70,0"
  = (Skipped, [cerr "Skip unsupported test type:  Test"]).
Proof. vm_compute. reflexivity. Qed.

(** * Further properties: the fields k,b,n,c *)

(** A helper that fails leaves the tokens as they were. *)
Lemma parseKbnc_failed_rest (e : WorktodoEntry) (p : list string) :
  ok (parseKbnc e p) = false -> rest (parseKbnc e p) = p.
Proof. unfold parseKbnc. repeat case_match; simpl; congruence. Qed.

(** X17: on a PFactor line whose first field token is 1,
    [parseExponentOrKbnc] never fails.  When the four tokens do not read as
    valid k,b,n,c, the reason of that failure is printed, yet the line goes
    on: the token 1 alone is taken, as the exponent 1, and the tokens after
    it are read as the next fields. *)
Theorem pfactor_one_never_fails (e : WorktodoEntry) (tl : list string) :
  exists r,
    parseExponentOrKbnc e ("1" :: tl) = Some r /\
    ok r = true /\
    (ok (parseKbnc e ("1" :: tl)) = true -> r = parseKbnc e ("1" :: tl)) /\
    (ok (parseKbnc e ("1" :: tl)) = false ->
     exponent (ent r) = 1 /\ rest r = tl /\
     out r = out (parseKbnc e ("1" :: tl))).
Proof.
  unfold parseExponentOrKbnc.
  change (Str.eqb "1" "1") with true. cbv iota.
  destruct (ok (parseKbnc e ("1" :: tl))) eqn:Hok.
  - eexists. split; [reflexivity|]. split; [exact Hok|].
    split; [reflexivity | discriminate].
  - rewrite (parseKbnc_failed_rest _ _ Hok).
    eexists. split; [reflexivity|].
    unfold parseExponent. change (Conv.stoul "1") with (Some 1).
    cbn [ok ent rest out exponent set_exponent].
    change (Conv.to_u32 1 =? 0) with false. cbn [ok ent rest out exponent].
    split; [reflexivity|]. split; [discriminate|]. intros _.
    split; [reflexivity|]. split; [reflexivity|]. now rewrite app_nil_r.
Qed.

Example pfactor_exponent_zero_line :
  decodeLine acceptFactors stod_u64_plain "PFactor=1,2,0,-1,70,5,1000,2000"
  = (Skipped, [cerr "Skip: invalid k,b,n,c values";
               cerr "Skip: invalid B1,B2 values"]).
Proof. vm_compute. reflexivity. Qed.




(** * Further properties: the known factors *)

(** X19: the decoder itself filters no known factor.  The factors of a
    double-quoted token are exactly what the tokenizer returns for the text
    between the quotes; and when that is not empty, [parsePartsFactors] on
    tokens that end with such a token succeeds, stores exactly these
    factors, replacing the ones the entry had, and takes the token away,
    leaving the others. *)
Theorem quoted_factors_stored_as_split (content : string) :
  parseFactors (Str.quoted content) = util_split content ","%char /\
  forall (e : WorktodoEntry) (parts : list string),
    util_split content ","%char <> [] ->
    parsePartsFactors e (parts ++ [Str.quoted content])
    = Run true (set_knownFactors e (util_split content ","%char)) parts [].
Proof.
  split; [apply parseFactors_quoted|].
  intros e parts Hne. unfold parsePartsFactors.
  destruct (parts ++ [Str.quoted content]) as [|p0 tl] eqn:E.
  { apply app_eq_nil in E as [_ E]. discriminate. }
  rewrite <- E, last_last, removelast_last, parseFactors_quoted.
  destruct (util_split content ","%char); [contradiction | reflexivity].
Qed.

Lemma quoted_factors_stored_as_split_witness :
  util_split "36357263,145429049" ","%char = ["36357263"; "145429049"] /\
  parsePartsFactors defaultEntry ["75"; "0"; Str.quoted "36357263,145429049"]
  = Run true (set_knownFactors defaultEntry ["36357263"; "145429049"]) ["75"; "0"] [].
Proof.
  split; [reflexivity|].
  apply (proj2 (quoted_factors_stored_as_split "36357263,145429049")
           defaultEntry ["75"; "0"]).
  discriminate.
Defined.
